(** * thermistor_app.c: BLE Environmental Sensing temperature application

    A shallow embedding of [src/ble/env_sensing_temp/thermistor_app.c]:
    the management callback, the one-time initialisation, the periodic
    timer callback and the advertisement builder.  The Bluetooth stack,
    the timer service and the ADC driver are outside the file; a call
    across that boundary is recorded, with its arguments, in the order the
    program issues it, and the value it returns is taken from an oracle. *)

From Stdlib Require Import ZArith Lia.
From stdpp Require Import base tactics option list.

Local Open Scope Z_scope.

(** ** Machine integers *)

(** [(uint8_t) v]: conversion to an 8-bit unsigned value. *)
Definition uint8_t_cast (v : Z) : Z := v mod 256.

(** The values of [int16_t], the return type of [thermistor_read]. *)
Definition int16_t_range (v : Z) : Prop := -32768 <= v <= 32767.

(** The values of [uint8_t]. *)
Definition uint8_t_range (v : Z) : Prop := 0 <= v <= 255.

(** ** Constants *)

(** [#define POLL_TIMER_IN_MS (5000)] *)
Definition POLL_TIMER_IN_MS : Z := 5000.

(** [#define ABS(N) ((N<0)?(-N):(N))], expanded textually at its one use,
    [ABS(temperature % 100)]: the test is [temperature % 100 < 0], the
    negative branch is [-temperature % 100], that is [(-temperature) % 100].
    C's [%] truncates toward zero ([Z.rem]). *)
Definition ABS_temperature_rem_100 (temperature : Z) : Z :=
  if Z.rem temperature 100 <? 0
  then Z.rem (- temperature) 100
  else Z.rem temperature 100.

(** Status codes of the SDK ([wiced_result.h], [wiced_bt_gatt.h]): success
    is zero in both [wiced_result_t] and [wiced_bt_gatt_status_t]. *)
Definition WICED_SUCCESS : Z := 0.
Definition WICED_BT_GATT_SUCCESS : Z := 0.

(** Client characteristic configuration bits ([wiced_bt_gatt.h]). *)
Definition GATT_CLIENT_CONFIG_NOTIFICATION : Z := 1.
Definition GATT_CLIENT_CONFIG_INDICATION : Z := 2.

(** Advertisement flag bits ([wiced_bt_ble.h]). *)
Definition BTM_BLE_GENERAL_DISCOVERABLE_FLAG : Z := 2.
Definition BTM_BLE_BREDR_NOT_SUPPORTED : Z := 4.

(** Assigned numbers ([wiced_bt_uuid.h]). *)
Definition UUID_SERVICE_ENVIRONMENTAL_SENSING : Z := 0x181A.
Definition APPEARANCE_GENERIC_THERMOMETER : Z := 768.

(** [sizeof(uint8_t)] *)
Definition sizeof_uint8_t : Z := 1.

(** ** Enumerations of the SDK used by the file *)

(** [wiced_bt_management_evt_t]: the four events the callback has a case
    for; every other event takes the [default] branch. *)
Inductive wiced_bt_management_evt_t : Type :=
  | BTM_ENABLED_EVT
  | BTM_DISABLED_EVT
  | BTM_BLE_ADVERT_STATE_CHANGED_EVT
  | BTM_BLE_PHY_UPDATE_EVT
  | BTM_other_evt (code : Z).

(** [wiced_bt_ble_advert_type_t]: advertisement data type tags. *)
Inductive wiced_bt_ble_advert_type_t : Type :=
  | BTM_BLE_ADVERT_TYPE_FLAG
  | BTM_BLE_ADVERT_TYPE_16SRV_PARTIAL
  | BTM_BLE_ADVERT_TYPE_16SRV_COMPLETE
  | BTM_BLE_ADVERT_TYPE_NAME_SHORT
  | BTM_BLE_ADVERT_TYPE_NAME_COMPLETE
  | BTM_BLE_ADVERT_TYPE_APPEARANCE.

(** [wiced_timer_type_t] *)
Inductive wiced_timer_type_t : Type :=
  | WICED_SECONDS_TIMER
  | WICED_MILLI_SECONDS_TIMER
  | WICED_SECONDS_PERIODIC_TIMER
  | WICED_MILLI_SECONDS_PERIODIC_TIMER.

(** [wiced_bt_ble_advert_mode_t], as far as the file names it. *)
Inductive wiced_bt_ble_advert_mode_t : Type :=
  | BTM_BLE_ADVERT_OFF
  | BTM_BLE_ADVERT_UNDIRECTED_HIGH
  | BTM_BLE_ADVERT_other (code : Z).

(** [wiced_bt_ble_address_type_t] *)
Inductive wiced_bt_ble_address_type_t : Type :=
  | BLE_ADDR_PUBLIC
  | BLE_ADDR_RANDOM.

(** The timer objects and timer callbacks of the file: one of each. *)
Inductive timer_object : Type := milli_seconds_timer.
Inductive timer_callback : Type := seconds_timer_temperature_cb_ptr.

(** [wiced_bt_ble_advert_elem_t]: [p_data] is a pointer in C; here it is
    the bytes of the object it points to. *)
Record wiced_bt_ble_advert_elem_t : Type := mk_advert_elem {
  advert_type : wiced_bt_ble_advert_type_t;
  len : Z;
  p_data : list Z
}.

(** [wiced_bt_management_evt_data_t], the members the callback reads. *)
Record wiced_bt_management_evt_data_t : Type := mk_evt_data {
  ble_advert_state_changed : wiced_bt_ble_advert_mode_t;
  ble_phy_update_event_tx_phy : Z;
  ble_phy_update_event_rx_phy : Z
}.

(** ** PayloadCodec: the two bytes stored at lines 289-290 *)

(** [(uint8_t) (temperature & 0xff)] *)
Definition temperature_byte0 (temperature : Z) : Z :=
  uint8_t_cast (Z.land temperature 0xff).

(** [(uint8_t) ((temperature >> 8) & 0xff)]; [>>] on the promoted signed
    value is the arithmetic shift. *)
Definition temperature_byte1 (temperature : Z) : Z :=
  uint8_t_cast (Z.land (Z.shiftr temperature 8) 0xff).

(** The wire payload of a reading: byte 0 then byte 1. *)
Definition encode (temperature : Z) : list Z :=
  [temperature_byte0 temperature; temperature_byte1 temperature].

(** An 8-bit value, decided. *)
Definition is_uint8_t (v : Z) : bool := (0 <=? v) && (v <=? 255).

(** Modelled from the spec: the decoder is not part of the repository (the
    peer reads the characteristic).  The spec's words: "exactly 2 bytes,
    little-endian two's-complement encoding of SensorReading".  A payload
    of another length, or one whose elements are not bytes, has no
    reading. *)
Definition decode (payload : list Z) : option Z :=
  match payload with
  | [b0; b1] =>
      if is_uint8_t b0 && is_uint8_t b1 then
        let u := b0 + 256 * b1 in
        Some (if u <? 32768 then u else u - 65536)
      else None
  | _ => None
  end.

(** ** The application's global data *)

(** [thermistor_conn_id] is defined in the file; [app_ess_temperature] and
    [app_ess_temperature_client_char_config] are the arrays of the
    generated GATT database ([cycfg_gatt_db.h]) that the file reads and
    writes. *)
Record app_globals : Type := mk_globals {
  thermistor_conn_id : Z;
  app_ess_temperature : list Z;
  app_ess_temperature_client_char_config : list Z
}.

(** ** Diagnostic output *)

(** The messages of the [WICED_BT_TRACE] calls of the file, one constructor
    per format string, carrying the arguments printed.  [btm_event_name],
    [btm_advert_mode_name] and [gatt_status_name] (of
    [thermistor_util_functions.h]) turn a code into its name; the message
    carries the code. *)
Inductive trace_msg : Type :=
  | TRACE_banner (poll_ms : Z)
  | TRACE_discover_name (name : list Z)
  | TRACE_device_address
  | TRACE_crlf
  | TRACE_management_event
  | TRACE_btm_event_name (event : wiced_bt_management_evt_t)
  | TRACE_bluetooth_disabled
  | TRACE_advert_state_changed_to
  | TRACE_btm_advert_mode_name (mode : wiced_bt_ble_advert_mode_t)
  | TRACE_phy_updated (tx_phy rx_phy : Z)
  | TRACE_temperature (degrees hundredths : Z)
  | TRACE_connected_notifications_enabled
  | TRACE_connected_notifications_not_enabled
  | TRACE_not_connected
  | TRACE_gatt_status
  | TRACE_gatt_status_name (status : Z)
  | TRACE_gatt_db_init_not_successful
  | TRACE_seconds_timer_error
  | TRACE_raw_advertisement_failed
  | TRACE_ota_init_failure
  | TRACE_advertisements_successful.

(** ** Calls across the boundary of the file *)

(** A call of a function the file does not define, with the arguments the
    file passes. *)
Inductive stack_call : Type :=
  | WICED_BT_TRACE (msg : trace_msg)
  | wiced_set_debug_uart
  | wiced_bt_stack_init
  | wiced_bt_dev_read_local_addr
  | wiced_bt_gatt_register
  | wiced_bt_gatt_db_init
  | thermistor_init
  | thermistor_read
  | wiced_init_timer (p_timer : timer_object) (cb : timer_callback)
                     (arg : Z) (type : wiced_timer_type_t)
  | wiced_start_timer (p_timer : timer_object) (timeout : Z)
  | wiced_bt_ble_set_raw_advertisement_data
      (num_elem : Z) (p_data : list wiced_bt_ble_advert_elem_t)
  | wiced_bt_set_pairable_mode (allow_pairing connect_only_paired : bool)
  | wiced_ota_fw_upgrade_init (public_key : bool)
  | wiced_bt_start_advertisements
      (advert_mode : wiced_bt_ble_advert_mode_t)
      (directed_advertisement_bdaddr_type : wiced_bt_ble_address_type_t)
  | wiced_bt_gatt_send_notification
      (conn_id attr_handle val_len : Z) (p_val : list Z).

(** What the functions outside the file return during one run of a
    callback. *)
Record stack_results : Type := mk_results {
  wiced_bt_gatt_register_result : Z;
  wiced_bt_gatt_db_init_result : Z;
  wiced_init_timer_result : Z;
  wiced_start_timer_result : Z;
  wiced_bt_ble_set_raw_advertisement_data_result : Z;
  wiced_ota_fw_upgrade_init_result : Z;
  wiced_bt_start_advertisements_result : Z;
  thermistor_read_result : Z;
  wiced_bt_gatt_send_notification_result : Z
}.

(** What the file takes from sources that are not part of it: the
    generated GATT database ([GeneratedSource/cycfg_gatt_db.h]), the macro
    [FROM_BIT16_TO_8] of [thermistor_util_functions.h] with the size of
    the type of its expansion, and the build options. *)
Record build_config : Type := mk_config {
  app_gap_device_name : list Z;
  app_gap_device_name_len : Z;
  app_ess_temperature_len : Z;
  HDLC_ESS_TEMPERATURE_VALUE : Z;
  FROM_BIT16_TO_8 : Z -> Z;
  sizeof_FROM_BIT16_TO_8 : Z;
  WICED_BT_TRACE_ENABLE : bool;
  OTA_SECURE_FIRMWARE_UPGRADE : bool
}.

(** ** The monad of the callbacks: global data and the calls issued *)

Record world : Type := mk_world {
  globals : app_globals;
  calls : list stack_call
}.

Definition App (A : Type) : Type := world -> A * world.

#[export] Instance App_ret : MRet App := fun A (a : A) (w : world) => (a, w).

#[export] Instance App_bind : MBind App :=
  fun A B (f : A -> App B) (m : App A) (w : world) =>
    let (a, w') := m w in f a w'.

(** Issue a call and take its result. *)
Definition invoke {A : Type} (c : stack_call) (result : A) : App A :=
  fun w => (result, mk_world (globals w) (calls w ++ [c])).

Definition trace (msg : trace_msg) : App unit :=
  invoke (WICED_BT_TRACE msg) tt.

(** Read a global. *)
Definition load {A : Type} (f : app_globals -> A) : App A :=
  fun w => (f (globals w), w).

(** [app_ess_temperature[i] = v] *)
Definition store_app_ess_temperature (i : nat) (v : Z) : App unit :=
  fun w =>
    let g := globals w in
    (tt, mk_world
           (mk_globals (thermistor_conn_id g)
                       (<[i := v]> (app_ess_temperature g))
                       (app_ess_temperature_client_char_config g))
           (calls w)).

(** A conditional statement without an [else]. *)
Definition when_ (b : bool) (m : App unit) : App unit :=
  if b then m else mret tt.

(** Run a callback on the global data, with no call issued yet. *)
Definition exec {A : Type} (m : App A) (g : app_globals) : A * world :=
  m (mk_world g []).

Definition calls_of {A : Type} (m : App A) (g : app_globals) : list stack_call :=
  calls (exec m g).2.

Definition globals_after {A : Type} (m : App A) (g : app_globals) : app_globals :=
  globals (exec m g).2.

(** ** The functions of thermistor_app.c *)

Section Application.

Variable cfg : build_config.

(** The results of the calls made during the run being described. *)
Variable R : stack_results.

(** [application_start] (lines 155-167).  [wiced_set_debug_uart] is
    compiled in when [WICED_BT_TRACE_ENABLE] or [TRACE_TO_WICED_HCI] is
    defined; the build option stands for either. *)
Definition application_start : App unit :=
  when_ (WICED_BT_TRACE_ENABLE cfg) (invoke wiced_set_debug_uart tt);;
  invoke wiced_bt_stack_init tt.

(** An element of the local array [adv_elem] before it is assigned. *)
Definition adv_elem_unassigned : wiced_bt_ble_advert_elem_t :=
  mk_advert_elem BTM_BLE_ADVERT_TYPE_FLAG 0 [].

(** [thermistor_set_advertisement_data] (lines 415-444).  The three
    members of [adv_elem[num_elem]] are assigned, then [num_elem++]. *)
Definition thermistor_set_advertisement_data : App Z :=
  let adv_elem := replicate 3 adv_elem_unassigned in
  let num_elem := 0%nat in
  let flag := uint8_t_cast (Z.lor BTM_BLE_GENERAL_DISCOVERABLE_FLAG
                                  BTM_BLE_BREDR_NOT_SUPPORTED) in
  let appearance_data :=
    uint8_t_cast (FROM_BIT16_TO_8 cfg APPEARANCE_GENERIC_THERMOMETER) in
  let uuid_data :=
    uint8_t_cast (FROM_BIT16_TO_8 cfg UUID_SERVICE_ENVIRONMENTAL_SENSING) in
  let adv_elem :=
    <[num_elem := mk_advert_elem BTM_BLE_ADVERT_TYPE_FLAG
                                 sizeof_uint8_t
                                 [flag]]> adv_elem in
  let num_elem := S num_elem in
  let adv_elem :=
    <[num_elem := mk_advert_elem BTM_BLE_ADVERT_TYPE_NAME_COMPLETE
                                 (app_gap_device_name_len cfg)
                                 (app_gap_device_name cfg)]> adv_elem in
  let num_elem := S num_elem in
  let adv_elem :=
    <[num_elem := mk_advert_elem BTM_BLE_ADVERT_TYPE_FLAG
                                 (sizeof_FROM_BIT16_TO_8 cfg)
                                 [uuid_data]]> adv_elem in
  let num_elem := S num_elem in
  result ← invoke (wiced_bt_ble_set_raw_advertisement_data
                     (Z.of_nat num_elem) adv_elem)
                  (wiced_bt_ble_set_raw_advertisement_data_result R);
  mret result.

(** [seconds_timer_temperature_cb] (lines 273-321). *)
Definition seconds_timer_temperature_cb (arg : Z) : App unit :=
  temperature ← invoke thermistor_read (thermistor_read_result R);
  trace (TRACE_temperature (temperature ÷ 100)
                           (ABS_temperature_rem_100 temperature));;
  store_app_ess_temperature 0 (temperature_byte0 temperature);;
  store_app_ess_temperature 1 (temperature_byte1 temperature);;
  conn_id ← load thermistor_conn_id;
  if negb (0 =? conn_id) then
    config0 ← load (λ g, app_ess_temperature_client_char_config g !!! 0%nat);
    if negb (0 =? Z.land config0 GATT_CLIENT_CONFIG_NOTIFICATION) then
      trace TRACE_connected_notifications_enabled;;
      conn_id ← load thermistor_conn_id;
      value ← load app_ess_temperature;
      invoke (wiced_bt_gatt_send_notification
                conn_id
                (HDLC_ESS_TEMPERATURE_VALUE cfg)
                (app_ess_temperature_len cfg)
                value)
             (wiced_bt_gatt_send_notification_result R);;
      mret tt
    else
      trace TRACE_connected_notifications_not_enabled
  else
    trace TRACE_not_connected.

(** [thermistor_app_init] (lines 335-402). *)
Definition thermistor_app_init : App unit :=
  status ← invoke wiced_bt_gatt_register (wiced_bt_gatt_register_result R);
  trace TRACE_gatt_status;;
  trace (TRACE_gatt_status_name status);;
  trace TRACE_crlf;;
  db_status ← invoke wiced_bt_gatt_db_init (wiced_bt_gatt_db_init_result R);
  when_ (negb (WICED_BT_GATT_SUCCESS =? db_status))
        (trace TRACE_gatt_db_init_not_successful);;
  invoke thermistor_init tt;;
  timer_status ← invoke (wiced_init_timer milli_seconds_timer
                                          seconds_timer_temperature_cb_ptr
                                          0
                                          WICED_MILLI_SECONDS_PERIODIC_TIMER)
                        (wiced_init_timer_result R);
  when_ (WICED_SUCCESS =? timer_status)
        (start_status ← invoke (wiced_start_timer milli_seconds_timer
                                                  POLL_TIMER_IN_MS)
                               (wiced_start_timer_result R);
         when_ (negb (WICED_SUCCESS =? start_status))
               (trace TRACE_seconds_timer_error));;
  adv_status ← thermistor_set_advertisement_data;
  when_ (negb (WICED_SUCCESS =? adv_status))
        (trace TRACE_raw_advertisement_failed);;
  invoke (wiced_bt_set_pairable_mode false true) tt;;
  ota_ok ← invoke (wiced_ota_fw_upgrade_init (OTA_SECURE_FIRMWARE_UPGRADE cfg))
                  (wiced_ota_fw_upgrade_init_result R);
  when_ (ota_ok =? 0) (trace TRACE_ota_init_failure);;
  advert_status ← invoke (wiced_bt_start_advertisements
                            BTM_BLE_ADVERT_UNDIRECTED_HIGH
                            BLE_ADDR_PUBLIC)
                         (wiced_bt_start_advertisements_result R);
  when_ (WICED_SUCCESS =? advert_status)
        (trace TRACE_advertisements_successful).

(** The four lines that name the event, common to the cases. *)
Definition trace_event_name (event : wiced_bt_management_evt_t) : App unit :=
  trace TRACE_crlf;;
  trace TRACE_management_event;;
  trace (TRACE_btm_event_name event);;
  trace TRACE_crlf.

(** [thermistor_management_callback] (lines 183-260). *)
Definition thermistor_management_callback
    (event : wiced_bt_management_evt_t)
    (p_event_data : wiced_bt_management_evt_data_t) : App Z :=
  let status := WICED_SUCCESS in
  match event with
  | BTM_ENABLED_EVT =>
      trace (TRACE_banner POLL_TIMER_IN_MS);;
      trace (TRACE_discover_name (app_gap_device_name cfg));;
      invoke wiced_bt_dev_read_local_addr tt;;
      trace TRACE_device_address;;
      trace_event_name event;;
      thermistor_app_init
  | BTM_DISABLED_EVT =>
      trace_event_name event;;
      trace TRACE_bluetooth_disabled
  | BTM_BLE_ADVERT_STATE_CHANGED_EVT =>
      trace_event_name event;;
      let p_adv_mode := ble_advert_state_changed p_event_data in
      trace TRACE_crlf;;
      trace TRACE_advert_state_changed_to;;
      trace (TRACE_btm_advert_mode_name p_adv_mode);;
      trace TRACE_crlf
  | BTM_BLE_PHY_UPDATE_EVT =>
      trace_event_name event;;
      trace (TRACE_phy_updated (ble_phy_update_event_tx_phy p_event_data)
                               (ble_phy_update_event_rx_phy p_event_data))
  | BTM_other_evt _ => mret tt
  end;;
  mret status.

End Application.

(** ** The timer service *)

(** The periodic timer calls [seconds_timer_temperature_cb] once per
    period; each tick has its own results of the calls it makes. *)
Fixpoint run_ticks (cfg : build_config) (Rs : list stack_results) : App unit :=
  match Rs with
  | [] => mret tt
  | R :: Rs' => seconds_timer_temperature_cb cfg R 0;; run_ticks cfg Rs'
  end.

(** ** Observations on the calls issued *)

Definition is_trace (c : stack_call) : bool :=
  match c with WICED_BT_TRACE _ => true | _ => false end.

Definition is_gatt_register (c : stack_call) : bool :=
  match c with wiced_bt_gatt_register => true | _ => false end.

Definition is_gatt_db_init (c : stack_call) : bool :=
  match c with wiced_bt_gatt_db_init => true | _ => false end.

Definition is_thermistor_init (c : stack_call) : bool :=
  match c with thermistor_init => true | _ => false end.

Definition is_thermistor_read (c : stack_call) : bool :=
  match c with thermistor_read => true | _ => false end.

Definition is_init_timer (c : stack_call) : bool :=
  match c with wiced_init_timer _ _ _ _ => true | _ => false end.

Definition is_start_timer (c : stack_call) : bool :=
  match c with wiced_start_timer _ _ => true | _ => false end.

(** Creating or starting the timer. *)
Definition is_timer_call (c : stack_call) : bool :=
  is_init_timer c || is_start_timer c.

Definition is_set_raw_advertisement_data (c : stack_call) : bool :=
  match c with wiced_bt_ble_set_raw_advertisement_data _ _ => true | _ => false end.

Definition is_set_pairable_mode (c : stack_call) : bool :=
  match c with wiced_bt_set_pairable_mode _ _ => true | _ => false end.

Definition is_ota_fw_upgrade_init (c : stack_call) : bool :=
  match c with wiced_ota_fw_upgrade_init _ => true | _ => false end.

Definition is_start_advertisements (c : stack_call) : bool :=
  match c with wiced_bt_start_advertisements _ _ => true | _ => false end.

Definition is_send_notification (c : stack_call) : bool :=
  match c with wiced_bt_gatt_send_notification _ _ _ _ => true | _ => false end.

(** How many of the calls satisfy [p]. *)
Fixpoint count_calls (p : stack_call -> bool) (l : list stack_call) : nat :=
  match l with
  | [] => 0
  | c :: l' => (if p c then 1 else 0) + count_calls p l'
  end.

(** Every call satisfying [b] comes after a call satisfying [a]. *)
Definition precedes (a b : stack_call -> bool) (l : list stack_call) : Prop :=
  forall pre c post,
    l = pre ++ c :: post -> b c = true -> exists x, x ∈ pre /\ a x = true.

(** The same, decided by one pass over the calls; [seen] tells whether a
    call satisfying [a] has been passed. *)
Fixpoint precedes_from (a b : stack_call -> bool) (seen : bool)
    (l : list stack_call) : bool :=
  match l with
  | [] => true
  | c :: l' => (if b c then seen else true) && precedes_from a b (seen || a c) l'
  end.

(** The message [msg] is among the calls. *)
Definition logged (msg : trace_msg) (l : list stack_call) : Prop :=
  WICED_BT_TRACE msg ∈ l.

(** A failure is reported in the diagnostic output when the run with the
    failure prints a message that the run without it does not. *)
Definition failure_reported (l_failure l_success : list stack_call) : Prop :=
  exists msg, logged msg l_failure /\ ~ logged msg l_success.

(** The gate of the timer callback, as its two conditions are written:
    [0 != thermistor_conn_id] and
    [0 != (app_ess_temperature_client_char_config[0] &
           GATT_CLIENT_CONFIG_NOTIFICATION)]. *)
Definition connected (g : app_globals) : bool :=
  negb (0 =? thermistor_conn_id g).

Definition notifications_enabled (g : app_globals) : bool :=
  negb (0 =? Z.land (app_ess_temperature_client_char_config g !!! 0%nat)
                    GATT_CLIENT_CONFIG_NOTIFICATION).

(** The three elements [thermistor_set_advertisement_data] hands to the
    stack, as the assignments of lines 426-438 leave them. *)
Definition adv_elem_flags : wiced_bt_ble_advert_elem_t :=
  mk_advert_elem BTM_BLE_ADVERT_TYPE_FLAG 1 [6].

Definition adv_elem_name (cfg : build_config) : wiced_bt_ble_advert_elem_t :=
  mk_advert_elem BTM_BLE_ADVERT_TYPE_NAME_COMPLETE
                 (app_gap_device_name_len cfg) (app_gap_device_name cfg).

Definition adv_elem_third (cfg : build_config) : wiced_bt_ble_advert_elem_t :=
  mk_advert_elem BTM_BLE_ADVERT_TYPE_FLAG
                 (sizeof_FROM_BIT16_TO_8 cfg)
                 [uint8_t_cast (FROM_BIT16_TO_8 cfg UUID_SERVICE_ENVIRONMENTAL_SENSING)].

(** The calls of [thermistor_app_init], written out by outcome. *)
Definition app_init_calls (cfg : build_config) (R : stack_results)
    : list stack_call :=
  [wiced_bt_gatt_register;
   WICED_BT_TRACE TRACE_gatt_status;
   WICED_BT_TRACE (TRACE_gatt_status_name (wiced_bt_gatt_register_result R));
   WICED_BT_TRACE TRACE_crlf;
   wiced_bt_gatt_db_init]
  ++ (if WICED_BT_GATT_SUCCESS =? wiced_bt_gatt_db_init_result R then []
      else [WICED_BT_TRACE TRACE_gatt_db_init_not_successful])
  ++ [thermistor_init;
      wiced_init_timer milli_seconds_timer seconds_timer_temperature_cb_ptr 0
                       WICED_MILLI_SECONDS_PERIODIC_TIMER]
  ++ (if WICED_SUCCESS =? wiced_init_timer_result R then
        wiced_start_timer milli_seconds_timer POLL_TIMER_IN_MS
        :: (if WICED_SUCCESS =? wiced_start_timer_result R then []
            else [WICED_BT_TRACE TRACE_seconds_timer_error])
      else [])
  ++ [wiced_bt_ble_set_raw_advertisement_data
        3 [adv_elem_flags; adv_elem_name cfg; adv_elem_third cfg]]
  ++ (if WICED_SUCCESS =? wiced_bt_ble_set_raw_advertisement_data_result R
      then [] else [WICED_BT_TRACE TRACE_raw_advertisement_failed])
  ++ [wiced_bt_set_pairable_mode false true;
      wiced_ota_fw_upgrade_init (OTA_SECURE_FIRMWARE_UPGRADE cfg)]
  ++ (if wiced_ota_fw_upgrade_init_result R =? 0
      then [WICED_BT_TRACE TRACE_ota_init_failure] else [])
  ++ [wiced_bt_start_advertisements BTM_BLE_ADVERT_UNDIRECTED_HIGH BLE_ADDR_PUBLIC]
  ++ (if WICED_SUCCESS =? wiced_bt_start_advertisements_result R
      then [WICED_BT_TRACE TRACE_advertisements_successful] else []).

(** The calls of the [BTM_ENABLED_EVT] case before [thermistor_app_init]. *)
Definition enabled_evt_prologue (cfg : build_config) : list stack_call :=
  [WICED_BT_TRACE (TRACE_banner POLL_TIMER_IN_MS);
   WICED_BT_TRACE (TRACE_discover_name (app_gap_device_name cfg));
   wiced_bt_dev_read_local_addr;
   WICED_BT_TRACE TRACE_device_address;
   WICED_BT_TRACE TRACE_crlf;
   WICED_BT_TRACE TRACE_management_event;
   WICED_BT_TRACE (TRACE_btm_event_name BTM_ENABLED_EVT);
   WICED_BT_TRACE TRACE_crlf].

(** The results of a run in which every call succeeds, with the reading
    [temperature]. *)
Definition all_succeed (temperature : Z) : stack_results :=
  mk_results WICED_BT_GATT_SUCCESS WICED_BT_GATT_SUCCESS WICED_SUCCESS
             WICED_SUCCESS WICED_SUCCESS 1 WICED_SUCCESS temperature
             WICED_BT_GATT_SUCCESS.

(** Replace the result of one call. *)
Definition with_send_notification_result (status : Z) (R : stack_results)
    : stack_results :=
  mk_results (wiced_bt_gatt_register_result R)
             (wiced_bt_gatt_db_init_result R)
             (wiced_init_timer_result R)
             (wiced_start_timer_result R)
             (wiced_bt_ble_set_raw_advertisement_data_result R)
             (wiced_ota_fw_upgrade_init_result R)
             (wiced_bt_start_advertisements_result R)
             (thermistor_read_result R)
             status.

Definition with_start_advertisements_result (status : Z) (R : stack_results)
    : stack_results :=
  mk_results (wiced_bt_gatt_register_result R)
             (wiced_bt_gatt_db_init_result R)
             (wiced_init_timer_result R)
             (wiced_start_timer_result R)
             (wiced_bt_ble_set_raw_advertisement_data_result R)
             (wiced_ota_fw_upgrade_init_result R)
             status
             (thermistor_read_result R)
             (wiced_bt_gatt_send_notification_result R).

Definition with_init_timer_result (status : Z) (R : stack_results)
    : stack_results :=
  mk_results (wiced_bt_gatt_register_result R)
             (wiced_bt_gatt_db_init_result R)
             status
             (wiced_start_timer_result R)
             (wiced_bt_ble_set_raw_advertisement_data_result R)
             (wiced_ota_fw_upgrade_init_result R)
             (wiced_bt_start_advertisements_result R)
             (thermistor_read_result R)
             (wiced_bt_gatt_send_notification_result R).

(** A configuration to evaluate on: the device name "Thermistor", a
    two-byte temperature characteristic, and [FROM_BIT16_TO_8] taking the
    high byte. *)
Definition sample_config : build_config :=
  mk_config [84; 104; 101; 114; 109; 105; 115; 116; 111; 114] 10
            2 0x000A (λ v, Z.shiftr v 8) 1 true false.

(** Not connected, notifications off, temperature bytes zero. *)
Definition idle_globals : app_globals := mk_globals 0 [0; 0] [0; 0].

(** Connected with connection id [conn_id], configuration bytes [config]. *)
Definition connected_globals (conn_id : Z) (config : list Z) : app_globals :=
  mk_globals conn_id [0; 0] config.

(** The temperature buffer after lines 289-290. *)
Definition stored_temperature (temperature : Z) (buffer : list Z) : list Z :=
  <[1%nat := temperature_byte1 temperature]>
    (<[0%nat := temperature_byte0 temperature]> buffer).

(** The global data after a tick that read [temperature]. *)
Definition tick_globals (temperature : Z) (g : app_globals) : app_globals :=
  mk_globals (thermistor_conn_id g)
             (stored_temperature temperature (app_ess_temperature g))
             (app_ess_temperature_client_char_config g).

(** The calls of one tick, written out by the state of the gate. *)
Definition tick_calls (cfg : build_config) (R : stack_results) (g : app_globals)
    : list stack_call :=
  [thermistor_read;
   WICED_BT_TRACE (TRACE_temperature
                     (thermistor_read_result R ÷ 100)
                     (ABS_temperature_rem_100 (thermistor_read_result R)))]
  ++ (if connected g then
        if notifications_enabled g then
          [WICED_BT_TRACE TRACE_connected_notifications_enabled;
           wiced_bt_gatt_send_notification
             (thermistor_conn_id g)
             (HDLC_ESS_TEMPERATURE_VALUE cfg)
             (app_ess_temperature_len cfg)
             (stored_temperature (thermistor_read_result R)
                                 (app_ess_temperature g))]
        else [WICED_BT_TRACE TRACE_connected_notifications_not_enabled]
      else [WICED_BT_TRACE TRACE_not_connected]).

(** The calls issued by one tick, by the initialisation, and by the
    management callback on an event. *)
Definition tick_issued (cfg : build_config) (R : stack_results)
    (g : app_globals) : list stack_call :=
  calls_of (seconds_timer_temperature_cb cfg R 0) g.

Definition init_issued (cfg : build_config) (R : stack_results)
    (g : app_globals) : list stack_call :=
  calls_of (thermistor_app_init cfg R) g.

Definition event_issued (cfg : build_config) (R : stack_results)
    (event : wiced_bt_management_evt_t)
    (p_event_data : wiced_bt_management_evt_data_t)
    (g : app_globals) : list stack_call :=
  calls_of (thermistor_management_callback cfg R event p_event_data) g.

(** Event data to evaluate on. *)
Definition sample_evt_data : wiced_bt_management_evt_data_t :=
  mk_evt_data BTM_BLE_ADVERT_UNDIRECTED_HIGH 1 1.

(** ** Sequences of ticks and of events *)

(** The global data after the ticks [Rs], tick by tick. *)
Fixpoint ticks_globals (Rs : list stack_results) (g : app_globals)
    : app_globals :=
  match Rs with
  | [] => g
  | R :: Rs' => ticks_globals Rs' (tick_globals (thermistor_read_result R) g)
  end.

(** The calls of the ticks [Rs], tick by tick. *)
Fixpoint ticks_calls (cfg : build_config) (Rs : list stack_results)
    (g : app_globals) : list stack_call :=
  match Rs with
  | [] => []
  | R :: Rs' =>
      tick_calls cfg R g
      ++ ticks_calls cfg Rs' (tick_globals (thermistor_read_result R) g)
  end.

(** The stack delivers one event, then another. *)
Definition two_events (cfg : build_config)
    (R1 : stack_results) (event1 : wiced_bt_management_evt_t)
    (data1 : wiced_bt_management_evt_data_t)
    (R2 : stack_results) (event2 : wiced_bt_management_evt_t)
    (data2 : wiced_bt_management_evt_data_t) : App Z :=
  thermistor_management_callback cfg R1 event1 data1;;
  thermistor_management_callback cfg R2 event2 data2.

(** The length an advertisement element declares is the number of bytes
    of the object its [p_data] points to. *)
Definition declared_length_exact (e : wiced_bt_ble_advert_elem_t) : Prop :=
  len e = Z.of_nat (length (p_data e)).

(** The elements handed to the stack by the calls [l]. *)
Fixpoint advertised_elements (l : list stack_call)
    : list wiced_bt_ble_advert_elem_t :=
  match l with
  | [] => []
  | wiced_bt_ble_set_raw_advertisement_data _ elems :: l' =>
      elems ++ advertised_elements l'
  | _ :: l' => advertised_elements l'
  end.

(** The calls print nothing but the temperature line. *)
Definition prints_only_temperature (l : list stack_call) : Prop :=
  forall msg, logged msg l ->
    exists degrees hundredths, msg = TRACE_temperature degrees hundredths.

(** One if the test holds, zero otherwise. *)
Definition one_if (b : bool) : nat := if b then 1%nat else 0%nat.

(** ** Proof automation *)

(** Unfold the monad and the record projections. *)
Ltac run_monad :=
  cbv [exec calls_of globals_after mbind mret App_bind App_ret invoke trace
       load when_ store_app_ess_temperature trace_event_name globals calls
       wiced_bt_gatt_register_result wiced_bt_gatt_db_init_result
       wiced_init_timer_result wiced_start_timer_result
       wiced_bt_ble_set_raw_advertisement_data_result
       wiced_ota_fw_upgrade_init_result wiced_bt_start_advertisements_result
       thermistor_read_result wiced_bt_gatt_send_notification_result
       thermistor_conn_id app_ess_temperature
       app_ess_temperature_client_char_config fst snd].

(** Case analysis on the outcomes that [thermistor_app_init] tests. *)
Ltac by_outcome R :=
  let r1 := fresh "gatt_register_status" in
  let r2 := fresh "db_init_status" in
  let r3 := fresh "init_timer_status" in
  let r4 := fresh "start_timer_status" in
  let r5 := fresh "set_adv_status" in
  let r6 := fresh "ota_init_ok" in
  let r7 := fresh "start_adv_status" in
  destruct R as [r1 r2 r3 r4 r5 r6 r7 ? ?];
  unfold app_init_calls, enabled_evt_prologue;
  cbn [wiced_bt_gatt_register_result wiced_bt_gatt_db_init_result
       wiced_init_timer_result wiced_start_timer_result
       wiced_bt_ble_set_raw_advertisement_data_result
       wiced_ota_fw_upgrade_init_result wiced_bt_start_advertisements_result];
  destruct (Z.eqb_spec WICED_BT_GATT_SUCCESS r2),
           (Z.eqb_spec WICED_SUCCESS r3),
           (Z.eqb_spec WICED_SUCCESS r4),
           (Z.eqb_spec WICED_SUCCESS r5),
           (Z.eqb_spec r6 0),
           (Z.eqb_spec WICED_SUCCESS r7);
  cbn [app].

Ltac is_logged :=
  unfold logged;
  solve [repeat (first [apply list_elem_of_here | apply list_elem_of_further])].

Ltac not_logged H :=
  unfold logged in H;
  repeat (apply elem_of_cons in H as [H | H]; [discriminate H |]);
  apply elem_of_nil in H; exact H.

Ltac outcome_arith :=
  unfold WICED_SUCCESS, WICED_BT_GATT_SUCCESS in *; lia.

Ltac settle_logged :=
  lazymatch goal with
  | |- logged _ _ => is_logged
  | |- logged _ _ <-> _ =>
      split;
      [ let H := fresh "Hin" in
        intros H; first [ outcome_arith | exfalso; not_logged H ]
      | intros ?; first [ is_logged | exfalso; outcome_arith ] ]
  | |- _ => reflexivity
  end.

(** ** Lemmas on the codec *)

Lemma land_0xff (v : Z) : Z.land v 0xff = v mod 256.
Proof. change 0xff with (Z.ones 8). rewrite Z.land_ones by lia. reflexivity. Qed.

Lemma temperature_byte0_mod (t : Z) : temperature_byte0 t = t mod 256.
Proof.
  unfold temperature_byte0, uint8_t_cast.
  rewrite land_0xff. apply Z.mod_mod. lia.
Qed.

Lemma temperature_byte1_mod (t : Z) : temperature_byte1 t = (t / 256) mod 256.
Proof.
  unfold temperature_byte1, uint8_t_cast.
  rewrite land_0xff, Z.shiftr_div_pow2 by lia.
  change (2 ^ 8) with 256. apply Z.mod_mod. lia.
Qed.

Lemma temperature_bytes_range (t : Z) :
  uint8_t_range (temperature_byte0 t) /\ uint8_t_range (temperature_byte1 t).
Proof.
  rewrite temperature_byte0_mod, temperature_byte1_mod.
  unfold uint8_t_range.
  pose proof (Z.mod_pos_bound t 256).
  pose proof (Z.mod_pos_bound (t / 256) 256). lia.
Qed.

Lemma is_uint8_t_true (v : Z) : uint8_t_range v -> is_uint8_t v = true.
Proof.
  unfold uint8_t_range, is_uint8_t. intros [Hlo Hhi].
  apply andb_true_intro. split; apply Z.leb_le; assumption.
Qed.

(** C2. For every 16-bit signed integer [x], the timer callback stores
    exactly two bytes for [x], byte 0 = [x & 0xff] and byte 1 =
    [(x >> 8) & 0xff], each an 8-bit value, and decoding these two bytes
    as a little-endian two's-complement value gives [x] back. *)
Theorem decode_encode_roundtrip (x : Z) :
  int16_t_range x ->
  decode (encode x) = Some x
  /\ encode x = [Z.land x 0xff; Z.land (Z.shiftr x 8) 0xff]
  /\ Forall uint8_t_range (encode x).
Proof.
  intros Hx. unfold int16_t_range in Hx.
  destruct (temperature_bytes_range x) as [Hb0 Hb1].
  split; [| split].
  - unfold encode, decode.
    rewrite (is_uint8_t_true _ Hb0), (is_uint8_t_true _ Hb1).
    cbn [andb].
    rewrite temperature_byte0_mod, temperature_byte1_mod.
    pose proof (Z.div_mod x 256 ltac:(lia)) as Hdm.
    pose proof (Z.mod_pos_bound x 256 ltac:(lia)) as Hlo.
    assert (Hq : -128 <= x / 256 <= 127) by lia.
    f_equal.
    destruct (Z_lt_ge_dec (x / 256) 0) as [Hneg | Hpos].
    + assert (Hhi : (x / 256) mod 256 = x / 256 + 256).
      { symmetry. apply (Z.mod_unique_pos _ _ (-1)); lia. }
      rewrite Hhi.
      destruct (Z.ltb_spec (x mod 256 + 256 * (x / 256 + 256)) 32768); lia.
    + rewrite (Z.mod_small (x / 256)) by lia.
      destruct (Z.ltb_spec (x mod 256 + 256 * (x / 256)) 32768); lia.
  - unfold encode.
    rewrite temperature_byte0_mod, temperature_byte1_mod.
    rewrite !land_0xff, Z.shiftr_div_pow2 by lia. reflexivity.
  - unfold encode.
    constructor; [exact Hb0 | constructor; [exact Hb1 | constructor]].
Qed.

Lemma decode_encode_roundtrip_witness :
  int16_t_range (-2350) /\ decode (encode (-2350)) = Some (-2350).
Proof.
  split.
  - unfold int16_t_range. lia.
  - apply (decode_encode_roundtrip (-2350)). unfold int16_t_range. lia.
Defined.

(** The decoder rejects what is not two bytes: a pair holding the reading
    itself, unsplit, has no reading. *)
Example decode_rejects_unsplit_reading :
  decode [-2350; 0] = None /\ decode [2350; 0] = None /\ decode [0x2E] = None.
Proof. repeat split; reflexivity. Qed.

(** ** Lemmas on the calls *)

Lemma count_calls_app (p : stack_call -> bool) (l1 l2 : list stack_call) :
  count_calls p (l1 ++ l2) = (count_calls p l1 + count_calls p l2)%nat.
Proof.
  induction l1 as [| c l1 IH]; simpl; [reflexivity |].
  rewrite IH. lia.
Qed.

Lemma precedes_from_sound (a b : stack_call -> bool) (l : list stack_call) :
  forall seen, precedes_from a b seen l = true ->
  forall pre c post, l = pre ++ c :: post -> b c = true ->
    seen = true \/ exists x, x ∈ pre /\ a x = true.
Proof.
  induction l as [| d l IH]; intros seen H pre c post Hl Hb.
  - destruct pre; discriminate.
  - simpl in H. apply andb_prop in H as [H1 H2].
    destruct pre as [| p pre]; simpl in Hl; injection Hl as Hd Hl; subst.
    + rewrite Hb in H1. left. exact H1.
    + destruct (IH _ H2 pre c post eq_refl Hb) as [Hs | (x & Hx & Ha)].
      * apply orb_prop in Hs as [Hs | Ha]; [left; exact Hs |].
        right. exists p. split; [apply list_elem_of_here | exact Ha].
      * right. exists x. split; [apply list_elem_of_further, Hx | exact Ha].
Qed.

Lemma precedes_decide (a b : stack_call -> bool) (l : list stack_call) :
  precedes_from a b false l = true -> precedes a b l.
Proof.
  intros H pre c post Hl Hb.
  destruct (precedes_from_sound a b l false H pre c post Hl Hb) as [? | ?];
    [discriminate | assumption].
Qed.

(** ** The runs of the functions, written out *)

Lemma set_advertisement_data_run (cfg : build_config) (R : stack_results)
    (w : world) :
  thermistor_set_advertisement_data cfg R w =
  (wiced_bt_ble_set_raw_advertisement_data_result R,
   mk_world (globals w)
            (calls w ++ [wiced_bt_ble_set_raw_advertisement_data
                           3 [adv_elem_flags; adv_elem_name cfg;
                              adv_elem_third cfg]])).
Proof. reflexivity. Qed.

Lemma app_init_run (cfg : build_config) (R : stack_results) (g : app_globals) :
  exec (thermistor_app_init cfg R) g = (tt, mk_world g (app_init_calls cfg R)).
Proof.
  destruct R as [r1 r2 r3 r4 r5 r6 r7 r8 r9].
  unfold thermistor_app_init, thermistor_set_advertisement_data,
    app_init_calls.
  run_monad.
  destruct (WICED_BT_GATT_SUCCESS =? r2), (WICED_SUCCESS =? r3),
    (WICED_SUCCESS =? r4), (WICED_SUCCESS =? r5), (r6 =? 0),
    (WICED_SUCCESS =? r7); reflexivity.
Qed.

Lemma init_issued_eq (cfg : build_config) (R : stack_results) (g : app_globals) :
  init_issued cfg R g = app_init_calls cfg R.
Proof. unfold init_issued, calls_of. rewrite app_init_run. reflexivity. Qed.

Lemma enabled_evt_run (cfg : build_config) (R : stack_results)
    (data : wiced_bt_management_evt_data_t) (g : app_globals) :
  exec (thermistor_management_callback cfg R BTM_ENABLED_EVT data) g =
  (WICED_SUCCESS, mk_world g (enabled_evt_prologue cfg ++ app_init_calls cfg R)).
Proof.
  destruct R as [r1 r2 r3 r4 r5 r6 r7 r8 r9].
  unfold thermistor_management_callback, thermistor_app_init,
    thermistor_set_advertisement_data, app_init_calls, enabled_evt_prologue.
  run_monad.
  destruct (WICED_BT_GATT_SUCCESS =? r2), (WICED_SUCCESS =? r3),
    (WICED_SUCCESS =? r4), (WICED_SUCCESS =? r5), (r6 =? 0),
    (WICED_SUCCESS =? r7); reflexivity.
Qed.

Lemma enabled_evt_issued_eq (cfg : build_config) (R : stack_results)
    (data : wiced_bt_management_evt_data_t) (g : app_globals) :
  event_issued cfg R BTM_ENABLED_EVT data g =
  enabled_evt_prologue cfg ++ app_init_calls cfg R.
Proof. unfold event_issued, calls_of. rewrite enabled_evt_run. reflexivity. Qed.

Lemma tick_run (cfg : build_config) (R : stack_results) (arg : Z) (w : world) :
  seconds_timer_temperature_cb cfg R arg w =
  (tt, mk_world (tick_globals (thermistor_read_result R) (globals w))
                (calls w ++ tick_calls cfg R (globals w))).
Proof.
  destruct w as [[conn_id temp config] issued].
  unfold seconds_timer_temperature_cb, tick_calls, tick_globals, connected,
    notifications_enabled.
  run_monad.
  destruct (negb (0 =? conn_id)); [| simpl; rewrite <- !app_assoc; reflexivity].
  destruct (negb (0 =? Z.land (config !!! 0%nat) GATT_CLIENT_CONFIG_NOTIFICATION));
    simpl; rewrite <- !app_assoc; reflexivity.
Qed.

Lemma tick_calls_of (cfg : build_config) (R : stack_results) (arg : Z)
    (g : app_globals) :
  calls_of (seconds_timer_temperature_cb cfg R arg) g = tick_calls cfg R g.
Proof. unfold calls_of, exec. rewrite tick_run. reflexivity. Qed.

Lemma tick_issued_eq (cfg : build_config) (R : stack_results) (g : app_globals) :
  tick_issued cfg R g = tick_calls cfg R g.
Proof. apply tick_calls_of. Qed.

Lemma count_read_tick_calls (cfg : build_config) (R : stack_results)
    (g : app_globals) :
  count_calls is_thermistor_read (tick_calls cfg R g) = 1%nat.
Proof.
  unfold tick_calls.
  destruct (connected g), (notifications_enabled g); reflexivity.
Qed.

Lemma tick_globals_after (cfg : build_config) (R : stack_results) (arg : Z)
    (g : app_globals) :
  globals_after (seconds_timer_temperature_cb cfg R arg) g =
  tick_globals (thermistor_read_result R) g.
Proof. unfold globals_after, exec. rewrite tick_run. reflexivity. Qed.

Lemma stored_temperature_encode (temperature : Z) (buffer : list Z) :
  length buffer = 2%nat -> stored_temperature temperature buffer = encode temperature.
Proof.
  destruct buffer as [| b0 [| b1 [| b2 rest]]]; simpl; intros H;
    try discriminate; reflexivity.
Qed.

Lemma count_send_tick_calls (cfg : build_config) (R : stack_results)
    (g : app_globals) :
  count_calls is_send_notification (tick_calls cfg R g) =
  if connected g && notifications_enabled g then 1%nat else 0%nat.
Proof.
  unfold tick_calls.
  destruct (connected g), (notifications_enabled g); reflexivity.
Qed.

Lemma connected_true_iff (g : app_globals) :
  connected g = true <-> thermistor_conn_id g <> 0.
Proof.
  unfold connected.
  destruct (Z.eqb_spec 0 (thermistor_conn_id g)); simpl; split;
    intros; try congruence; lia.
Qed.

Lemma notification_bit_test (v : Z) :
  Z.land v GATT_CLIENT_CONFIG_NOTIFICATION = Z.b2z (Z.testbit v 0).
Proof.
  change GATT_CLIENT_CONFIG_NOTIFICATION with (Z.ones 1).
  rewrite Z.land_ones by lia. rewrite Z.bit0_mod. reflexivity.
Qed.

Lemma notifications_enabled_testbit (g : app_globals) :
  notifications_enabled g =
  Z.testbit (app_ess_temperature_client_char_config g !!! 0%nat) 0.
Proof.
  unfold notifications_enabled. rewrite notification_bit_test.
  destruct (Z.testbit _ 0); reflexivity.
Qed.

Lemma gate_open_iff (g : app_globals) :
  connected g && notifications_enabled g = true <->
  thermistor_conn_id g <> 0 /\ notifications_enabled g = true.
Proof.
  rewrite andb_true_iff, connected_true_iff. reflexivity.
Qed.

(** ** The notification gate *)

(** C1 (as the code has it). On a timer tick, the callback requests a
    notification send exactly when [thermistor_conn_id] is not 0 and the
    notification flag of the client configuration is set.  In the three
    other combinations no send is requested and nothing fails, but the
    tick is not silent: besides the temperature it prints one line saying
    which condition does not hold, "not connected" or "notifications are
    not enabled", and returns. *)
Theorem tick_sends_iff_connected_and_enabled
    (cfg : build_config) (R : stack_results) (g : app_globals) :
  (count_calls is_send_notification (tick_issued cfg R g) = 1%nat <->
     thermistor_conn_id g <> 0 /\ notifications_enabled g = true)
  /\ (count_calls is_send_notification (tick_issued cfg R g) = 0%nat <->
        ~ (thermistor_conn_id g <> 0 /\ notifications_enabled g = true))
  /\ (~ (thermistor_conn_id g <> 0 /\ notifications_enabled g = true) ->
        tick_issued cfg R g =
        [thermistor_read;
         WICED_BT_TRACE (TRACE_temperature
                           (thermistor_read_result R ÷ 100)
                           (ABS_temperature_rem_100 (thermistor_read_result R)));
         WICED_BT_TRACE (if connected g
                         then TRACE_connected_notifications_not_enabled
                         else TRACE_not_connected)]).
Proof.
  rewrite tick_issued_eq, count_send_tick_calls, <- gate_open_iff.
  unfold tick_calls.
  destruct (connected g), (notifications_enabled g); simpl;
    repeat split; intros; try congruence; try lia; try reflexivity;
    try (exfalso; auto; fail).
  all: intros H'; discriminate.
Qed.

(** C10. The notification flag is the test of bit 0, the notification bit,
    of the first byte of the client configuration: on a tick with a
    connection, a send is requested exactly when that bit is set, whatever
    the other bits and bytes are; a value with only the indication bit set
    requests none. *)
Theorem tick_gate_is_notification_bit_test
    (cfg : build_config) (R : stack_results) (g : app_globals) :
  thermistor_conn_id g <> 0 ->
  GATT_CLIENT_CONFIG_NOTIFICATION = 2 ^ 0
  /\ (Z.testbit (app_ess_temperature_client_char_config g !!! 0%nat) 0 = true ->
        count_calls is_send_notification (tick_issued cfg R g) = 1%nat)
  /\ (Z.testbit (app_ess_temperature_client_char_config g !!! 0%nat) 0 = false ->
        count_calls is_send_notification (tick_issued cfg R g) = 0%nat)
  /\ (app_ess_temperature_client_char_config g !!! 0%nat
        = GATT_CLIENT_CONFIG_INDICATION ->
        count_calls is_send_notification (tick_issued cfg R g) = 0%nat).
Proof.
  intros Hconn. apply connected_true_iff in Hconn.
  rewrite tick_issued_eq, count_send_tick_calls, Hconn.
  rewrite notifications_enabled_testbit. simpl.
  repeat split.
  - intros ->. reflexivity.
  - intros ->. reflexivity.
  - intros ->. reflexivity.
Qed.

Lemma tick_gate_is_notification_bit_test_witness :
  count_calls is_send_notification
    (tick_issued sample_config (all_succeed 2350) (connected_globals 1 [3; 0]))
    = 1%nat
  /\ count_calls is_send_notification
       (tick_issued sample_config (all_succeed 2350) (connected_globals 1 [2; 0]))
     = 0%nat.
Proof.
  split.
  - apply (tick_gate_is_notification_bit_test
             sample_config (all_succeed 2350) (connected_globals 1 [3; 0]));
      [simpl; lia | reflexivity].
  - apply (tick_gate_is_notification_bit_test
             sample_config (all_succeed 2350) (connected_globals 1 [2; 0]));
      [simpl; lia | reflexivity].
Defined.

(** ** The current value *)

(** C7. On every tick, whatever the connection id and the client
    configuration are, the reading returned by [thermistor_read] is
    encoded and stored in [app_ess_temperature]; with a connection and the
    notification flag clear the value is stored and no send is
    requested. *)
Theorem tick_stores_encoded_reading
    (cfg : build_config) (R : stack_results) (arg : Z) (g : app_globals) :
  length (app_ess_temperature g) = 2%nat ->
  app_ess_temperature (globals_after (seconds_timer_temperature_cb cfg R arg) g)
    = encode (thermistor_read_result R)
  /\ count_calls is_thermistor_read
       (calls_of (seconds_timer_temperature_cb cfg R arg) g) = 1%nat
  /\ (thermistor_conn_id g <> 0 -> notifications_enabled g = false ->
        count_calls is_send_notification
          (calls_of (seconds_timer_temperature_cb cfg R arg) g) = 0%nat).
Proof.
  intros Hlen.
  rewrite tick_globals_after, tick_calls_of.
  split; [| split].
  - simpl. apply stored_temperature_encode, Hlen.
  - apply count_read_tick_calls.
  - intros _ Hoff. rewrite count_send_tick_calls, Hoff, andb_false_r.
    reflexivity.
Qed.

Lemma tick_stores_encoded_reading_witness :
  app_ess_temperature
    (globals_after (seconds_timer_temperature_cb sample_config (all_succeed 2350) 0)
                   (connected_globals 1 [0; 0]))
    = [0x2E; 0x09]
  /\ count_calls is_send_notification
       (calls_of (seconds_timer_temperature_cb sample_config (all_succeed 2350) 0)
                 (connected_globals 1 [0; 0])) = 0%nat.
Proof.
  pose proof (tick_stores_encoded_reading
                sample_config (all_succeed 2350) 0 (connected_globals 1 [0; 0])
                eq_refl) as (Hstore & _ & Hsend).
  split.
  - rewrite Hstore. reflexivity.
  - apply Hsend; [simpl; lia | reflexivity].
Defined.

(** Against C1 as the specification words it (without a send the tick is a
    silent no-op): not connected, and connected with notifications off,
    the tick requests no send and prints a line about the connection
    besides the temperature line. *)
Lemma tick_without_send_is_not_silent :
  count_calls is_send_notification
    (tick_issued sample_config (all_succeed 2350) idle_globals) = 0%nat
  /\ logged TRACE_not_connected
            (tick_issued sample_config (all_succeed 2350) idle_globals)
  /\ ~ prints_only_temperature
        (tick_issued sample_config (all_succeed 2350) idle_globals)
  /\ count_calls is_send_notification
       (tick_issued sample_config (all_succeed 2350)
                    (connected_globals 1 [0; 0])) = 0%nat
  /\ logged TRACE_connected_notifications_not_enabled
            (tick_issued sample_config (all_succeed 2350)
                         (connected_globals 1 [0; 0]))
  /\ ~ prints_only_temperature
        (tick_issued sample_config (all_succeed 2350)
                     (connected_globals 1 [0; 0])).
Proof.
  assert (Hidle : logged TRACE_not_connected
                    (tick_issued sample_config (all_succeed 2350) idle_globals))
    by (rewrite tick_issued_eq; is_logged).
  assert (Hoff : logged TRACE_connected_notifications_not_enabled
                   (tick_issued sample_config (all_succeed 2350)
                                (connected_globals 1 [0; 0])))
    by (rewrite tick_issued_eq; is_logged).
  split; [reflexivity |]. split; [exact Hidle |]. split.
  { intros Honly. destruct (Honly _ Hidle) as (d & h & Hmsg). discriminate Hmsg. }
  split; [reflexivity |]. split; [exact Hoff |].
  intros Honly. destruct (Honly _ Hoff) as (d & h & Hmsg). discriminate Hmsg.
Qed.

Lemma tick_sends_iff_connected_and_enabled_witness :
  count_calls is_send_notification
    (tick_issued sample_config (all_succeed 2350) (connected_globals 1 [1; 0]))
    = 1%nat
  /\ tick_issued sample_config (all_succeed 2350) idle_globals =
     [thermistor_read;
      WICED_BT_TRACE (TRACE_temperature 23 50);
      WICED_BT_TRACE TRACE_not_connected].
Proof.
  pose proof (tick_sends_iff_connected_and_enabled
                sample_config (all_succeed 2350) (connected_globals 1 [1; 0]))
    as (Hone & _ & _).
  pose proof (tick_sends_iff_connected_and_enabled
                sample_config (all_succeed 2350) idle_globals)
    as (_ & _ & Hquiet).
  split.
  - apply Hone. split; [simpl; lia | reflexivity].
  - rewrite Hquiet; [reflexivity |].
    intros [Hconn _]. apply Hconn. reflexivity.
Defined.

(** ** What the callbacks write *)

Lemma management_callback_globals (cfg : build_config) (R : stack_results)
    (event : wiced_bt_management_evt_t)
    (data : wiced_bt_management_evt_data_t) (g : app_globals) :
  globals_after (thermistor_management_callback cfg R event data) g = g.
Proof.
  destruct event.
  - unfold globals_after. rewrite enabled_evt_run. reflexivity.
  - reflexivity.
  - reflexivity.
  - reflexivity.
  - reflexivity.
Qed.

Lemma application_start_globals (cfg : build_config) (g : app_globals) :
  globals_after (application_start cfg) g = g.
Proof.
  unfold globals_after, exec, application_start. run_monad.
  destruct (WICED_BT_TRACE_ENABLE cfg); reflexivity.
Qed.

Lemma count_timer_tick_calls (cfg : build_config) (R : stack_results)
    (g : app_globals) :
  count_calls is_timer_call (tick_calls cfg R g) = 0%nat.
Proof.
  unfold tick_calls.
  destruct (connected g), (notifications_enabled g); reflexivity.
Qed.

Lemma run_ticks_run (cfg : build_config) (Rs : list stack_results) :
  forall w, exists g' issued,
    run_ticks cfg Rs w = (tt, mk_world g' (calls w ++ issued))
    /\ thermistor_conn_id g' = thermistor_conn_id (globals w)
    /\ app_ess_temperature_client_char_config g'
       = app_ess_temperature_client_char_config (globals w)
    /\ count_calls is_timer_call issued = 0%nat.
Proof.
  induction Rs as [| R Rs IH]; intros w.
  - exists (globals w), []. destruct w as [g issued]. simpl.
    rewrite app_nil_r. repeat split; reflexivity.
  - simpl. unfold mbind, App_bind. rewrite tick_run.
    destruct (IH (mk_world (tick_globals (thermistor_read_result R) (globals w))
                           (calls w ++ tick_calls cfg R (globals w))))
      as (g' & issued & Hrun & Hconn & Hconfig & Hcount).
    exists g', (tick_calls cfg R (globals w) ++ issued).
    cbn [calls globals] in Hrun. rewrite Hrun, <- app_assoc.
    split; [reflexivity |]. split; [exact Hconn |]. split; [exact Hconfig |].
    rewrite count_calls_app, Hcount, count_timer_tick_calls. reflexivity.
Qed.

(** C9. Neither callback assigns the connection id or the client
    configuration: the management callback, on any event, and
    [application_start] leave all global data as it was; a timer tick, and
    any number of ticks, leave [thermistor_conn_id] and
    [app_ess_temperature_client_char_config] as they were, and change
    [app_ess_temperature] only. *)
Theorem callbacks_do_not_write_subscription_state
    (cfg : build_config) (R : stack_results) (g : app_globals) :
  (forall event data,
      globals_after (thermistor_management_callback cfg R event data) g = g)
  /\ globals_after (application_start cfg) g = g
  /\ (forall arg,
        thermistor_conn_id
          (globals_after (seconds_timer_temperature_cb cfg R arg) g)
        = thermistor_conn_id g
        /\ app_ess_temperature_client_char_config
             (globals_after (seconds_timer_temperature_cb cfg R arg) g)
           = app_ess_temperature_client_char_config g)
  /\ (forall Rs,
        thermistor_conn_id (globals_after (run_ticks cfg Rs) g)
        = thermistor_conn_id g
        /\ app_ess_temperature_client_char_config
             (globals_after (run_ticks cfg Rs) g)
           = app_ess_temperature_client_char_config g).
Proof.
  split; [| split; [| split]].
  - intros event data. apply management_callback_globals.
  - apply application_start_globals.
  - intros arg. rewrite tick_globals_after. split; reflexivity.
  - intros Rs. unfold globals_after, exec.
    destruct (run_ticks_run cfg Rs (mk_world g []))
      as (g' & issued & Hrun & Hconn & Hconfig & _).
    rewrite Hrun. simpl in *. split; assumption.
Qed.

(** ** The advertisement data *)

(** C3. [thermistor_set_advertisement_data] hands the stack three elements
    in the order flags, complete name, third element.  The flags element
    has one byte, general-discoverable with classic-not-supported, and the
    name element carries the device name.  The third element does not have
    a service-UUID type tag and does not carry two bytes: its type tag is
    [BTM_BLE_ADVERT_TYPE_FLAG] again, and its data is the one byte
    [uuid_data]. *)
Theorem advertisement_third_element_is_flag_typed
    (cfg : build_config) (R : stack_results) (g : app_globals) :
  calls_of (thermistor_set_advertisement_data cfg R) g =
    [wiced_bt_ble_set_raw_advertisement_data
       3 [adv_elem_flags; adv_elem_name cfg; adv_elem_third cfg]]
  /\ adv_elem_flags =
       mk_advert_elem BTM_BLE_ADVERT_TYPE_FLAG 1
                      [Z.lor BTM_BLE_GENERAL_DISCOVERABLE_FLAG
                             BTM_BLE_BREDR_NOT_SUPPORTED]
  /\ adv_elem_name cfg =
       mk_advert_elem BTM_BLE_ADVERT_TYPE_NAME_COMPLETE
                      (app_gap_device_name_len cfg) (app_gap_device_name cfg)
  /\ advert_type (adv_elem_third cfg) = BTM_BLE_ADVERT_TYPE_FLAG
  /\ advert_type (adv_elem_third cfg) <> BTM_BLE_ADVERT_TYPE_16SRV_COMPLETE
  /\ advert_type (adv_elem_third cfg) <> BTM_BLE_ADVERT_TYPE_16SRV_PARTIAL
  /\ length (p_data (adv_elem_third cfg)) = 1%nat
  /\ p_data (adv_elem_third cfg) <>
       [Z.land UUID_SERVICE_ENVIRONMENTAL_SENSING 0xff;
        Z.shiftr UUID_SERVICE_ENVIRONMENTAL_SENSING 8].
Proof.
  repeat split; try reflexivity; simpl; discriminate.
Qed.

(** The advertisement data of the sample configuration: the third element
    is [{FLAG, 1, [0x18]}], where the service element would be
    [{16SRV_COMPLETE, 2, [0x1A; 0x18]}]. *)
Example advertisement_data_of_sample_config :
  calls_of (thermistor_set_advertisement_data sample_config (all_succeed 0))
           idle_globals =
    [wiced_bt_ble_set_raw_advertisement_data 3
       [mk_advert_elem BTM_BLE_ADVERT_TYPE_FLAG 1 [6];
        mk_advert_elem BTM_BLE_ADVERT_TYPE_NAME_COMPLETE 10
                       [84; 104; 101; 114; 109; 105; 115; 116; 111; 114];
        mk_advert_elem BTM_BLE_ADVERT_TYPE_FLAG 1 [0x18]]].
Proof. reflexivity. Qed.

(** ** The initialisation sequence *)

(** C4. In the initialisation run on [BTM_ENABLED_EVT], whatever the calls
    return, the GATT registration, the GATT database initialisation and
    [thermistor_init] have each been called, and have returned, before the
    timer is created or started and before advertising is started. *)
Theorem init_registers_and_initialises_sensor_first
    (cfg : build_config) (R : stack_results)
    (data : wiced_bt_management_evt_data_t) (g : app_globals) :
  precedes is_gatt_register is_timer_call
           (event_issued cfg R BTM_ENABLED_EVT data g)
  /\ precedes is_gatt_db_init is_timer_call
              (event_issued cfg R BTM_ENABLED_EVT data g)
  /\ precedes is_thermistor_init is_timer_call
              (event_issued cfg R BTM_ENABLED_EVT data g)
  /\ precedes is_gatt_register is_start_advertisements
              (event_issued cfg R BTM_ENABLED_EVT data g)
  /\ precedes is_gatt_db_init is_start_advertisements
              (event_issued cfg R BTM_ENABLED_EVT data g)
  /\ precedes is_thermistor_init is_start_advertisements
              (event_issued cfg R BTM_ENABLED_EVT data g)
  /\ count_calls is_init_timer
       (event_issued cfg R BTM_ENABLED_EVT data g) = 1%nat
  /\ count_calls is_start_advertisements
       (event_issued cfg R BTM_ENABLED_EVT data g) = 1%nat.
Proof.
  rewrite enabled_evt_issued_eq.
  by_outcome R;
    repeat split; try reflexivity; apply precedes_decide; reflexivity.
Qed.

(** ** Failures during the initialisation *)

Ltac init_calls_membership R :=
  rewrite !init_issued_eq in *;
  destruct R as [r1 r2 r3 r4 r5 r6 r7 r8 r9];
  unfold logged, app_init_calls, with_start_advertisements_result,
    with_init_timer_result in *;
  cbn [wiced_bt_gatt_register_result wiced_bt_gatt_db_init_result
       wiced_init_timer_result wiced_start_timer_result
       wiced_bt_ble_set_raw_advertisement_data_result
       wiced_ota_fw_upgrade_init_result wiced_bt_start_advertisements_result]
    in *;
  change (WICED_SUCCESS =? WICED_SUCCESS) with true in *;
  cbv iota in *;
  rewrite !elem_of_app in *.

Lemma start_advertisements_failure_prints_nothing
    (cfg : build_config) (R : stack_results) (g : app_globals) :
  wiced_bt_start_advertisements_result R <> WICED_SUCCESS ->
  ~ failure_reported
      (init_issued cfg R g)
      (init_issued cfg (with_start_advertisements_result WICED_SUCCESS R) g).
Proof.
  intros Hfail (msg & Hin & Hout). apply Hout. clear Hout.
  init_calls_membership R.
  destruct (Z.eqb_spec WICED_SUCCESS r7) as [Hok | _]; [congruence |].
  pose proof (elem_of_nil (WICED_BT_TRACE msg)) as Hnil.
  tauto.
Qed.

Lemma init_timer_failure_prints_nothing
    (cfg : build_config) (R : stack_results) (g : app_globals) :
  wiced_init_timer_result R <> WICED_SUCCESS ->
  ~ failure_reported
      (init_issued cfg R g)
      (init_issued cfg (with_init_timer_result WICED_SUCCESS R) g).
Proof.
  intros Hfail (msg & Hin & Hout). apply Hout. clear Hout.
  init_calls_membership R.
  destruct (Z.eqb_spec WICED_SUCCESS r3) as [Hok | _]; [congruence |].
  pose proof (elem_of_nil (WICED_BT_TRACE msg)) as Hnil.
  tauto.
Qed.

(** C5 (as the code has it). Every step of [thermistor_app_init] is called
    whatever the earlier steps returned; only [wiced_start_timer] is
    skipped, when [wiced_init_timer] failed.  The status of the GATT
    registration is always printed.  A failure of the database
    initialisation, of the timer start, of the advertisement data and of
    the upgrade initialisation each print their own line, and only then.
    A failure of [wiced_init_timer] and a failure of
    [wiced_bt_start_advertisements] print nothing, whatever the status
    returned and whatever the other calls return: the run prints no
    message that the run with that call succeeding does not print, and
    the number of lines printed is three, one more for each of the four
    failures above, and one more when advertising starts.  So when the
    advertisement data step fails and the others succeed, pairability,
    upgrade initialisation and start of advertising are still called and
    the advertisement data line is the only failure line. *)
Theorem init_steps_all_run_and_failures_logged
    (cfg : build_config) (R : stack_results) (g : app_globals) :
  (wiced_bt_start_advertisements_result R <> WICED_SUCCESS ->
     ~ failure_reported
         (init_issued cfg R g)
         (init_issued cfg (with_start_advertisements_result WICED_SUCCESS R) g))
  /\ (wiced_init_timer_result R <> WICED_SUCCESS ->
        ~ failure_reported
            (init_issued cfg R g)
            (init_issued cfg (with_init_timer_result WICED_SUCCESS R) g))
  /\ count_calls is_trace (init_issued cfg R g)
     = (3
        + one_if (negb (WICED_BT_GATT_SUCCESS =? wiced_bt_gatt_db_init_result R)%Z)
        + one_if ((WICED_SUCCESS =? wiced_init_timer_result R)%Z
                  && negb (WICED_SUCCESS =? wiced_start_timer_result R)%Z)
        + one_if (negb (WICED_SUCCESS
                        =? wiced_bt_ble_set_raw_advertisement_data_result R)%Z)
        + one_if (wiced_ota_fw_upgrade_init_result R =? 0)%Z
        + one_if (WICED_SUCCESS =? wiced_bt_start_advertisements_result R)%Z)%nat
  /\ count_calls is_gatt_register (init_issued cfg R g) = 1%nat
  /\ count_calls is_gatt_db_init (init_issued cfg R g) = 1%nat
  /\ count_calls is_thermistor_init (init_issued cfg R g) = 1%nat
  /\ count_calls is_init_timer (init_issued cfg R g) = 1%nat
  /\ count_calls is_start_timer (init_issued cfg R g)
     = (if WICED_SUCCESS =? wiced_init_timer_result R then 1%nat else 0%nat)
  /\ count_calls is_set_raw_advertisement_data (init_issued cfg R g) = 1%nat
  /\ count_calls is_set_pairable_mode (init_issued cfg R g) = 1%nat
  /\ count_calls is_ota_fw_upgrade_init (init_issued cfg R g) = 1%nat
  /\ count_calls is_start_advertisements (init_issued cfg R g) = 1%nat
  /\ logged (TRACE_gatt_status_name (wiced_bt_gatt_register_result R))
            (init_issued cfg R g)
  /\ (logged TRACE_gatt_db_init_not_successful (init_issued cfg R g) <->
        wiced_bt_gatt_db_init_result R <> WICED_BT_GATT_SUCCESS)
  /\ (logged TRACE_seconds_timer_error (init_issued cfg R g) <->
        wiced_init_timer_result R = WICED_SUCCESS
        /\ wiced_start_timer_result R <> WICED_SUCCESS)
  /\ (logged TRACE_raw_advertisement_failed (init_issued cfg R g) <->
        wiced_bt_ble_set_raw_advertisement_data_result R <> WICED_SUCCESS)
  /\ (logged TRACE_ota_init_failure (init_issued cfg R g) <->
        wiced_ota_fw_upgrade_init_result R = 0)
  /\ (logged TRACE_advertisements_successful (init_issued cfg R g) <->
        wiced_bt_start_advertisements_result R = WICED_SUCCESS).
Proof.
  split; [apply start_advertisements_failure_prints_nothing |].
  split; [apply init_timer_failure_prints_nothing |].
  rewrite init_issued_eq.
  by_outcome R;
    repeat lazymatch goal with |- _ /\ _ => split end;
    settle_logged.
Qed.

(** Against C5 as the specification words it (every step that can fail
    reports its failure in the diagnostic output): with every call
    succeeding except [wiced_bt_start_advertisements], the initialisation
    prints no message that the run with every call succeeding does not
    print; the same holds when only [wiced_init_timer] fails. *)
Lemma start_advertisements_failure_not_logged :
  wiced_bt_start_advertisements_result
    (with_start_advertisements_result 1 (all_succeed 0)) <> WICED_SUCCESS
  /\ ~ failure_reported
         (init_issued sample_config
            (with_start_advertisements_result 1 (all_succeed 0)) idle_globals)
         (init_issued sample_config (all_succeed 0) idle_globals)
  /\ wiced_init_timer_result
       (with_init_timer_result 1 (all_succeed 0)) <> WICED_SUCCESS
  /\ ~ failure_reported
         (init_issued sample_config
            (with_init_timer_result 1 (all_succeed 0)) idle_globals)
         (init_issued sample_config (all_succeed 0) idle_globals).
Proof.
  rewrite !init_issued_eq.
  split; [discriminate |]. split; [| split; [discriminate |]].
  - intros (msg & Hin & Hout). apply Hout. clear Hout.
    unfold logged in *. cbn in Hin |- *.
    repeat (apply elem_of_cons in Hin as [Hin | Hin];
            [rewrite Hin; is_logged |]).
    apply elem_of_nil in Hin. destruct Hin.
  - intros (msg & Hin & Hout). apply Hout. clear Hout.
    unfold logged in *. cbn in Hin |- *.
    repeat (apply elem_of_cons in Hin as [Hin | Hin];
            [rewrite Hin; is_logged |]).
    apply elem_of_nil in Hin. destruct Hin.
Qed.

(** The run in which only the advertisement data step fails. *)
Example init_with_advertisement_data_failure :
  init_issued sample_config
    (mk_results 0 0 0 0 1 1 0 0 0) idle_globals =
  [wiced_bt_gatt_register;
   WICED_BT_TRACE TRACE_gatt_status;
   WICED_BT_TRACE (TRACE_gatt_status_name 0);
   WICED_BT_TRACE TRACE_crlf;
   wiced_bt_gatt_db_init;
   thermistor_init;
   wiced_init_timer milli_seconds_timer seconds_timer_temperature_cb_ptr 0
                    WICED_MILLI_SECONDS_PERIODIC_TIMER;
   wiced_start_timer milli_seconds_timer 5000;
   wiced_bt_ble_set_raw_advertisement_data 3
     [mk_advert_elem BTM_BLE_ADVERT_TYPE_FLAG 1 [6];
      mk_advert_elem BTM_BLE_ADVERT_TYPE_NAME_COMPLETE 10
                     [84; 104; 101; 114; 109; 105; 115; 116; 111; 114];
      mk_advert_elem BTM_BLE_ADVERT_TYPE_FLAG 1 [0x18]];
   WICED_BT_TRACE TRACE_raw_advertisement_failed;
   wiced_bt_set_pairable_mode false true;
   wiced_ota_fw_upgrade_init false;
   wiced_bt_start_advertisements BTM_BLE_ADVERT_UNDIRECTED_HIGH BLE_ADDR_PUBLIC;
   WICED_BT_TRACE TRACE_advertisements_successful].
Proof. reflexivity. Qed.

(** ** The send request *)

Lemma tick_ignores_send_result (cfg : build_config) (R : stack_results)
    (arg status : Z) (w : world) :
  seconds_timer_temperature_cb cfg (with_send_notification_result status R) arg w
  = seconds_timer_temperature_cb cfg R arg w.
Proof. rewrite !tick_run. reflexivity. Qed.

Lemma send_is_last_of_tick_calls (cfg : build_config) (R : stack_results)
    (g : app_globals) (pre post : list stack_call) (c : stack_call) :
  tick_calls cfg R g = pre ++ c :: post ->
  is_send_notification c = true -> post = [].
Proof.
  unfold tick_calls. intros Hsplit Hsend.
  destruct (connected g), (notifications_enabled g); simpl in Hsplit.
  all: repeat (destruct pre as [| ? pre]; simpl in Hsplit;
               [injection Hsplit as <- <-; first [discriminate Hsend | reflexivity]
               | injection Hsplit as <- Hsplit]).
  all: destruct pre; discriminate Hsplit.
Qed.

(** C6 (as the code has it). When the gate passes, the tick requests the
    send once, as its last action: nothing is awaited and nothing is
    retried.  The status the stack returns for the send is discarded
    without being printed: the calls issued and the global data after the
    tick are the same whatever that status is.  The next tick evaluates
    the gate again on the global data as they are then. *)
Theorem send_is_fire_and_forget_and_failure_not_logged
    (cfg : build_config) (R : stack_results) (arg status : Z)
    (g : app_globals) :
  exec (seconds_timer_temperature_cb
          cfg (with_send_notification_result status R) arg) g
  = exec (seconds_timer_temperature_cb cfg R arg) g
  /\ count_calls is_send_notification
       (calls_of (seconds_timer_temperature_cb cfg R arg) g)
     = (if connected g && notifications_enabled g then 1%nat else 0%nat)
  /\ (forall pre c post,
        calls_of (seconds_timer_temperature_cb cfg R arg) g = pre ++ c :: post ->
        is_send_notification c = true -> post = [])
  /\ (forall R' arg',
        count_calls is_send_notification
          (calls_of (seconds_timer_temperature_cb cfg R' arg')
                    (globals_after
                       (seconds_timer_temperature_cb
                          cfg (with_send_notification_result status R) arg) g))
        = (if connected g && notifications_enabled g then 1%nat else 0%nat)).
Proof.
  split; [| split; [| split]].
  - unfold exec. apply tick_ignores_send_result.
  - rewrite tick_calls_of. apply count_send_tick_calls.
  - intros pre c post. rewrite tick_calls_of.
    apply send_is_last_of_tick_calls.
  - intros R' arg'. rewrite tick_calls_of, tick_globals_after.
    rewrite count_send_tick_calls. reflexivity.
Qed.

(** Against C6 as the specification words it (a delivery failure is
    logged): connected with notifications enabled, the send is requested
    and the stack rejects it; the tick prints nothing that the tick with
    an accepted send does not print, and the send request is its last
    call. *)
Lemma send_failure_is_not_logged :
  count_calls is_send_notification
    (tick_issued sample_config
       (with_send_notification_result 1 (all_succeed 2350))
       (connected_globals 1 [1; 0])) = 1%nat
  /\ wiced_bt_gatt_send_notification_result
       (with_send_notification_result 1 (all_succeed 2350))
     <> WICED_BT_GATT_SUCCESS
  /\ ~ failure_reported
         (tick_issued sample_config
            (with_send_notification_result 1 (all_succeed 2350))
            (connected_globals 1 [1; 0]))
         (tick_issued sample_config (all_succeed 2350)
            (connected_globals 1 [1; 0]))
  /\ tick_issued sample_config
       (with_send_notification_result 1 (all_succeed 2350))
       (connected_globals 1 [1; 0])
     = [thermistor_read;
        WICED_BT_TRACE (TRACE_temperature 23 50);
        WICED_BT_TRACE TRACE_connected_notifications_enabled;
        wiced_bt_gatt_send_notification 1 0x000A 2 [0x2E; 0x09]].
Proof.
  split; [reflexivity |]. split; [discriminate |]. split; [| reflexivity].
  intros (msg & Hin & Hout). apply Hout. exact Hin.
Qed.

(** ** The timer *)

Lemma timer_calls_of_app_init (cfg : build_config) (R : stack_results)
    (c : stack_call) :
  c ∈ enabled_evt_prologue cfg ++ app_init_calls cfg R ->
  is_timer_call c = true ->
  c = wiced_init_timer milli_seconds_timer seconds_timer_temperature_cb_ptr 0
                       WICED_MILLI_SECONDS_PERIODIC_TIMER
  \/ c = wiced_start_timer milli_seconds_timer POLL_TIMER_IN_MS.
Proof.
  intros Hin Htimer. revert Hin.
  by_outcome R; intros Hin.
  all: repeat (apply elem_of_cons in Hin as [Hin | Hin];
               [subst c; first [discriminate Htimer | left; reflexivity
                               | right; reflexivity] |]).
  all: apply elem_of_nil in Hin; destruct Hin.
Qed.

Lemma other_events_no_timer_call (cfg : build_config) (R : stack_results)
    (event : wiced_bt_management_evt_t)
    (data : wiced_bt_management_evt_data_t) (g : app_globals) :
  event <> BTM_ENABLED_EVT ->
  count_calls is_timer_call (event_issued cfg R event data g) = 0%nat.
Proof.
  intros Hevent. destruct event; [congruence | reflexivity ..].
Qed.

(** C8 (as the code has it). The initialisation creates the timer once, as
    a millisecond periodic timer calling [seconds_timer_temperature_cb],
    and starts it with [POLL_TIMER_IN_MS] = 5000 once if the creation
    succeeded and not at all if it failed.  No other timer call is made:
    the other management events, the ticks and [application_start] make
    none. *)
Theorem timer_created_once_and_started_when_created
    (cfg : build_config) (R : stack_results) (g : app_globals) :
  POLL_TIMER_IN_MS = 5000
  /\ (forall data,
        count_calls is_init_timer (event_issued cfg R BTM_ENABLED_EVT data g)
        = 1%nat)
  /\ (forall data,
        count_calls is_start_timer (event_issued cfg R BTM_ENABLED_EVT data g)
        = if WICED_SUCCESS =? wiced_init_timer_result R then 1%nat else 0%nat)
  /\ (forall data c,
        c ∈ event_issued cfg R BTM_ENABLED_EVT data g ->
        is_timer_call c = true ->
        c = wiced_init_timer milli_seconds_timer
                             seconds_timer_temperature_cb_ptr 0
                             WICED_MILLI_SECONDS_PERIODIC_TIMER
        \/ c = wiced_start_timer milli_seconds_timer POLL_TIMER_IN_MS)
  /\ (forall event data,
        event <> BTM_ENABLED_EVT ->
        count_calls is_timer_call (event_issued cfg R event data g) = 0%nat)
  /\ (forall Rs,
        count_calls is_timer_call (calls_of (run_ticks cfg Rs) g) = 0%nat)
  /\ count_calls is_timer_call (calls_of (application_start cfg) g) = 0%nat.
Proof.
  split; [reflexivity |].
  split; [| split; [| split; [| split; [| split]]]].
  - intros data. rewrite enabled_evt_issued_eq. by_outcome R; reflexivity.
  - intros data. rewrite enabled_evt_issued_eq. by_outcome R; reflexivity.
  - intros data c. rewrite enabled_evt_issued_eq.
    apply timer_calls_of_app_init.
  - intros event data. apply other_events_no_timer_call.
  - intros Rs. unfold calls_of, exec.
    destruct (run_ticks_run cfg Rs (mk_world g []))
      as (g' & issued & Hrun & _ & _ & Hcount).
    rewrite Hrun. exact Hcount.
  - unfold calls_of, exec, application_start. run_monad.
    destruct (WICED_BT_TRACE_ENABLE cfg); reflexivity.
Qed.

(** Against C8 as the specification words it (the timer is armed exactly
    once): when [wiced_init_timer] fails, the initialisation does not
    start the timer at all. *)
Lemma timer_not_started_when_creation_fails :
  wiced_init_timer_result (with_init_timer_result 1 (all_succeed 0))
    <> WICED_SUCCESS
  /\ count_calls is_start_timer
       (event_issued sample_config (with_init_timer_result 1 (all_succeed 0))
                     BTM_ENABLED_EVT sample_evt_data idle_globals) = 0%nat
  /\ count_calls is_start_timer
       (event_issued sample_config (with_init_timer_result 1 (all_succeed 0))
                     BTM_ENABLED_EVT sample_evt_data idle_globals) <> 1%nat.
Proof.
  split; [discriminate |]. split; [reflexivity | discriminate].
Qed.

(** ** The theorems at concrete runs *)

Lemma init_steps_all_run_and_failures_logged_witness :
  logged TRACE_raw_advertisement_failed
         (init_issued sample_config (mk_results 0 0 0 0 1 1 0 0 0) idle_globals)
  /\ count_calls is_start_advertisements
       (init_issued sample_config (mk_results 0 0 0 0 1 1 0 0 0) idle_globals)
     = 1%nat.
Proof.
  pose proof (init_steps_all_run_and_failures_logged
                sample_config (mk_results 0 0 0 0 1 1 0 0 0) idle_globals)
    as (_ & _ & _ & _ & _ & _ & _ & _ & _ & _ & _ & Hadv & _ & _ & _ & Hraw & _).
  split.
  - apply Hraw. simpl. discriminate.
  - exact Hadv.
Defined.

Lemma send_is_fire_and_forget_and_failure_not_logged_witness :
  exec (seconds_timer_temperature_cb
          sample_config (with_send_notification_result 1 (all_succeed 2350)) 0)
       (connected_globals 1 [1; 0])
  = exec (seconds_timer_temperature_cb sample_config (all_succeed 2350) 0)
         (connected_globals 1 [1; 0])
  /\ count_calls is_send_notification
       (calls_of (seconds_timer_temperature_cb sample_config (all_succeed 2350) 0)
                 (connected_globals 1 [1; 0])) = 1%nat.
Proof.
  pose proof (send_is_fire_and_forget_and_failure_not_logged
                sample_config (all_succeed 2350) 0 1 (connected_globals 1 [1; 0]))
    as (Hsame & Hcount & _).
  split; [exact Hsame | exact Hcount].
Defined.

Lemma timer_created_once_and_started_when_created_witness :
  count_calls is_start_timer
    (event_issued sample_config (all_succeed 0) BTM_ENABLED_EVT
                  sample_evt_data idle_globals) = 1%nat
  /\ count_calls is_timer_call
       (event_issued sample_config (all_succeed 0) BTM_BLE_PHY_UPDATE_EVT
                     sample_evt_data idle_globals) = 0%nat.
Proof.
  pose proof (timer_created_once_and_started_when_created
                sample_config (all_succeed 0) idle_globals)
    as (_ & _ & Hstart & _ & Hother & _).
  split.
  - exact (Hstart sample_evt_data).
  - apply Hother. discriminate.
Defined.

(** ** More on the codec *)

Lemma byte_pair_value (t : Z) :
  temperature_byte0 t + 256 * temperature_byte1 t = t mod 65536.
Proof.
  rewrite temperature_byte0_mod, temperature_byte1_mod.
  change 65536 with (256 * 256).
  rewrite Z.rem_mul_r by lia. reflexivity.
Qed.

Lemma encode_bytes (t : Z) :
  encode t = [temperature_byte0 t; temperature_byte1 t].
Proof. reflexivity. Qed.

(** The two bytes stored for a reading are 8-bit values and, read as an
    unsigned little-endian number, are the reading modulo 2^16: a reading
    outside the 16-bit range wraps. *)
Theorem encode_is_reading_modulo_65536 (t : Z) :
  (exists b0 b1,
      encode t = [b0; b1]
      /\ uint8_t_range b0 /\ uint8_t_range b1
      /\ b0 + 256 * b1 = t mod 65536)
  /\ encode (t + 65536) = encode t.
Proof.
  split.
  - exists (temperature_byte0 t), (temperature_byte1 t).
    split; [reflexivity |].
    destruct (temperature_bytes_range t) as [H0 H1].
    split; [exact H0 |]. split; [exact H1 |]. apply byte_pair_value.
  - unfold encode.
    rewrite !temperature_byte0_mod, !temperature_byte1_mod.
    f_equal; [| f_equal]; Z.to_euclidean_division_equations; lia.
Qed.

(** Two different 16-bit signed readings are never stored as the same two
    bytes. *)
Theorem encode_injective_on_int16 (x y : Z) :
  int16_t_range x -> int16_t_range y -> encode x = encode y -> x = y.
Proof.
  unfold int16_t_range. intros Hx Hy Heq.
  rewrite !encode_bytes in Heq. injection Heq as H0 H1.
  pose proof (byte_pair_value x) as Vx.
  pose proof (byte_pair_value y) as Vy.
  rewrite H0, H1 in Vx. rewrite Vx in Vy.
  Z.to_euclidean_division_equations. lia.
Qed.

Lemma encode_injective_on_int16_witness :
  int16_t_range (-1) /\ int16_t_range (-1) /\ -1 = -1.
Proof.
  assert (H : int16_t_range (-1)) by (unfold int16_t_range; lia).
  split; [exact H |]. split; [exact H |].
  apply (encode_injective_on_int16 (-1) (-1) H H). reflexivity.
Defined.

(** For a 16-bit signed reading, the second byte stored has its top bit
    set exactly when the reading is negative. *)
Theorem encode_high_byte_carries_sign (x : Z) :
  int16_t_range x -> (x < 0 <-> 128 <= temperature_byte1 x).
Proof.
  unfold int16_t_range. intros Hx.
  rewrite temperature_byte1_mod.
  Z.to_euclidean_division_equations. lia.
Qed.

Lemma encode_high_byte_carries_sign_witness :
  int16_t_range (-2350) /\ 128 <= temperature_byte1 (-2350).
Proof.
  assert (H : int16_t_range (-2350)) by (unfold int16_t_range; lia).
  split; [exact H |].
  apply (encode_high_byte_carries_sign (-2350) H). lia.
Defined.

(** ** The temperature line *)

Lemma ABS_temperature_rem_100_abs (t : Z) :
  ABS_temperature_rem_100 t = Z.abs t mod 100.
Proof.
  unfold ABS_temperature_rem_100. rewrite Z.rem_opp_l by lia.
  destruct (Z.ltb_spec (Z.rem t 100) 0);
    Z.to_euclidean_division_equations; lia.
Qed.

Lemma temperature_line_logged (cfg : build_config) (R : stack_results)
    (g : app_globals) :
  logged (TRACE_temperature
            (thermistor_read_result R ÷ 100)
            (ABS_temperature_rem_100 (thermistor_read_result R)))
         (tick_issued cfg R g).
Proof.
  rewrite tick_issued_eq. unfold tick_calls, logged.
  apply list_elem_of_further, list_elem_of_here.
Qed.

(** The temperature line of a tick prints the reading split in two: the
    quotient by 100, truncated toward zero, and the last two decimal
    digits of the magnitude, which lie between 0 and 99; together they
    give the magnitude of the reading. *)
Theorem tick_prints_degrees_and_hundredths
    (cfg : build_config) (R : stack_results) (g : app_globals) :
  logged (TRACE_temperature
            (thermistor_read_result R ÷ 100)
            (Z.abs (thermistor_read_result R) mod 100))
         (tick_issued cfg R g)
  /\ 0 <= Z.abs (thermistor_read_result R) mod 100 <= 99
  /\ Z.abs (thermistor_read_result R)
     = 100 * Z.abs (thermistor_read_result R ÷ 100)
       + Z.abs (thermistor_read_result R) mod 100.
Proof.
  rewrite <- ABS_temperature_rem_100_abs.
  split; [apply temperature_line_logged |].
  rewrite ABS_temperature_rem_100_abs.
  split; Z.to_euclidean_division_equations; lia.
Qed.

(** A reading between -99 and -1 hundredths is printed without its sign:
    the degrees printed are 0, so the line is the one printed for the
    opposite, positive reading. *)
Theorem tick_prints_small_negative_reading_unsigned
    (cfg : build_config) (R R' : stack_results) (g g' : app_globals) :
  -100 < thermistor_read_result R < 0 ->
  thermistor_read_result R' = - thermistor_read_result R ->
  logged (TRACE_temperature 0 (- thermistor_read_result R))
         (tick_issued cfg R g)
  /\ logged (TRACE_temperature 0 (- thermistor_read_result R))
            (tick_issued cfg R' g').
Proof.
  intros Hsmall Hopp.
  assert (Hq : thermistor_read_result R ÷ 100 = 0)
    by (Z.to_euclidean_division_equations; lia).
  assert (Hq' : thermistor_read_result R' ÷ 100 = 0)
    by (rewrite Hopp; Z.to_euclidean_division_equations; lia).
  assert (Hr : ABS_temperature_rem_100 (thermistor_read_result R)
               = - thermistor_read_result R)
    by (rewrite ABS_temperature_rem_100_abs;
        Z.to_euclidean_division_equations; lia).
  assert (Hr' : ABS_temperature_rem_100 (thermistor_read_result R')
                = - thermistor_read_result R)
    by (rewrite ABS_temperature_rem_100_abs, Hopp;
        Z.to_euclidean_division_equations; lia).
  split.
  - rewrite <- Hq at 1. rewrite <- Hr. apply temperature_line_logged.
  - rewrite <- Hq' at 1. rewrite <- Hr'. apply temperature_line_logged.
Qed.

Lemma tick_prints_small_negative_reading_unsigned_witness :
  logged (TRACE_temperature 0 50)
         (tick_issued sample_config (all_succeed (-50)) idle_globals)
  /\ logged (TRACE_temperature 0 50)
            (tick_issued sample_config (all_succeed 50) idle_globals).
Proof.
  apply (tick_prints_small_negative_reading_unsigned
           sample_config (all_succeed (-50)) (all_succeed 50)
           idle_globals idle_globals).
  - simpl. lia.
  - reflexivity.
Defined.

(** ** The notification sent *)

(** With a connection, notifications enabled and the two-byte temperature
    buffer, a tick reads the sensor, prints two lines and requests one
    send: to the current connection id, for the temperature value handle,
    with the configured length, carrying the encoding of the reading just
    taken and not the bytes the buffer held before. *)
Theorem tick_notification_carries_fresh_reading
    (cfg : build_config) (R : stack_results) (g : app_globals) :
  thermistor_conn_id g <> 0 ->
  notifications_enabled g = true ->
  length (app_ess_temperature g) = 2%nat ->
  tick_issued cfg R g =
  [thermistor_read;
   WICED_BT_TRACE (TRACE_temperature
                     (thermistor_read_result R ÷ 100)
                     (ABS_temperature_rem_100 (thermistor_read_result R)));
   WICED_BT_TRACE TRACE_connected_notifications_enabled;
   wiced_bt_gatt_send_notification
     (thermistor_conn_id g)
     (HDLC_ESS_TEMPERATURE_VALUE cfg)
     (app_ess_temperature_len cfg)
     (encode (thermistor_read_result R))].
Proof.
  intros Hconn Hon Hlen. apply connected_true_iff in Hconn.
  rewrite tick_issued_eq. unfold tick_calls.
  rewrite Hconn, Hon, (stored_temperature_encode _ _ Hlen). reflexivity.
Qed.

Lemma tick_notification_carries_fresh_reading_witness :
  tick_issued sample_config (all_succeed (-2350))
              (mk_globals 0x0040 [0x2E; 0x09] [1; 0]) =
  [thermistor_read;
   WICED_BT_TRACE (TRACE_temperature (-23) 50);
   WICED_BT_TRACE TRACE_connected_notifications_enabled;
   wiced_bt_gatt_send_notification 0x0040 0x000A 2 [0xD2; 0xF6]].
Proof.
  apply (tick_notification_carries_fresh_reading
           sample_config (all_succeed (-2350))
           (mk_globals 0x0040 [0x2E; 0x09] [1; 0])).
  - simpl. lia.
  - reflexivity.
  - reflexivity.
Defined.

(** ** Sequences of ticks *)

Lemma run_ticks_eq (cfg : build_config) (Rs : list stack_results) :
  forall w,
    run_ticks cfg Rs w =
    (tt, mk_world (ticks_globals Rs (globals w))
                  (calls w ++ ticks_calls cfg Rs (globals w))).
Proof.
  induction Rs as [| R Rs IH]; intros w.
  - destruct w as [g issued]. simpl. rewrite app_nil_r. reflexivity.
  - simpl. unfold mbind, App_bind. rewrite tick_run, IH.
    cbn [globals calls]. rewrite <- app_assoc. reflexivity.
Qed.

Lemma run_ticks_calls_of (cfg : build_config) (Rs : list stack_results)
    (g : app_globals) :
  calls_of (run_ticks cfg Rs) g = ticks_calls cfg Rs g.
Proof. unfold calls_of, exec. rewrite run_ticks_eq. reflexivity. Qed.

Lemma run_ticks_globals_after (cfg : build_config) (Rs : list stack_results)
    (g : app_globals) :
  globals_after (run_ticks cfg Rs) g = ticks_globals Rs g.
Proof. unfold globals_after, exec. rewrite run_ticks_eq. reflexivity. Qed.

Lemma gate_after_tick (t : Z) (g : app_globals) :
  connected (tick_globals t g) && notifications_enabled (tick_globals t g)
  = connected g && notifications_enabled g.
Proof. reflexivity. Qed.

Lemma ticks_calls_counts (cfg : build_config) (Rs : list stack_results) :
  forall g,
    count_calls is_thermistor_read (ticks_calls cfg Rs g) = length Rs
    /\ count_calls is_send_notification (ticks_calls cfg Rs g)
       = if connected g && notifications_enabled g then length Rs else 0%nat.
Proof.
  induction Rs as [| R Rs IH]; intros g.
  - simpl. destruct (connected g && notifications_enabled g); split; reflexivity.
  - destruct (IH (tick_globals (thermistor_read_result R) g)) as [Hread Hsend].
    cbn [ticks_calls length].
    rewrite !count_calls_app, Hread, Hsend, gate_after_tick.
    rewrite count_read_tick_calls, count_send_tick_calls.
    destruct (connected g && notifications_enabled g); split; reflexivity.
Qed.

(** Over any number of ticks during which nothing else writes the global
    data, the sensor is read once per tick, and the number of send
    requests is the number of ticks if there is a connection with
    notifications enabled, and zero otherwise. *)
Theorem ticks_read_each_time_and_send_when_subscribed
    (cfg : build_config) (Rs : list stack_results) (g : app_globals) :
  count_calls is_thermistor_read (calls_of (run_ticks cfg Rs) g) = length Rs
  /\ count_calls is_send_notification (calls_of (run_ticks cfg Rs) g)
     = if connected g && notifications_enabled g then length Rs else 0%nat.
Proof. rewrite run_ticks_calls_of. apply ticks_calls_counts. Qed.

Lemma ticks_globals_app (Rs1 Rs2 : list stack_results) :
  forall g, ticks_globals (Rs1 ++ Rs2) g = ticks_globals Rs2 (ticks_globals Rs1 g).
Proof.
  induction Rs1 as [| R Rs1 IH]; intros g; simpl; [reflexivity | apply IH].
Qed.

Lemma ticks_globals_length (Rs : list stack_results) :
  forall g,
    length (app_ess_temperature (ticks_globals Rs g))
    = length (app_ess_temperature g).
Proof.
  induction Rs as [| R Rs IH]; intros g; simpl; [reflexivity |].
  rewrite IH. unfold tick_globals, stored_temperature. simpl.
  rewrite !length_insert. reflexivity.
Qed.

(** The temperature buffer keeps its two bytes over any number of ticks,
    and after the last tick it holds the encoding of the last reading:
    each tick overwrites what the previous ones stored. *)
Theorem ticks_leave_last_reading
    (cfg : build_config) (Rs : list stack_results) (R : stack_results)
    (g : app_globals) :
  length (app_ess_temperature g) = 2%nat ->
  length (app_ess_temperature (globals_after (run_ticks cfg Rs) g)) = 2%nat
  /\ app_ess_temperature (globals_after (run_ticks cfg (Rs ++ [R])) g)
     = encode (thermistor_read_result R).
Proof.
  intros Hlen. rewrite !run_ticks_globals_after. split.
  - rewrite ticks_globals_length. exact Hlen.
  - rewrite ticks_globals_app. simpl.
    apply stored_temperature_encode.
    rewrite ticks_globals_length. exact Hlen.
Qed.

Lemma ticks_leave_last_reading_witness :
  app_ess_temperature
    (globals_after
       (run_ticks sample_config [all_succeed 2350; all_succeed 2375; all_succeed (-5)])
       idle_globals)
  = [0xFB; 0xFF].
Proof.
  pose proof (ticks_leave_last_reading
                sample_config [all_succeed 2350; all_succeed 2375]
                (all_succeed (-5)) idle_globals eq_refl) as [_ Hlast].
  exact Hlast.
Defined.

(** ** The management callback on any event *)

Lemma management_callback_run (cfg : build_config) (R : stack_results)
    (event : wiced_bt_management_evt_t)
    (data : wiced_bt_management_evt_data_t) (w : world) :
  thermistor_management_callback cfg R event data w =
  (WICED_SUCCESS,
   mk_world (globals w)
            (calls w ++ event_issued cfg R event data (globals w))).
Proof.
  destruct w as [g issued]. destruct event.
  - rewrite enabled_evt_issued_eq.
    unfold thermistor_management_callback, thermistor_app_init,
      thermistor_set_advertisement_data.
    run_monad.
    by_outcome R; cbv beta iota zeta delta [negb];
      rewrite <- !app_assoc; reflexivity.
  - unfold thermistor_management_callback. run_monad.
    rewrite <- !app_assoc. reflexivity.
  - unfold thermistor_management_callback. run_monad.
    rewrite <- !app_assoc. reflexivity.
  - unfold thermistor_management_callback. run_monad.
    rewrite <- !app_assoc. reflexivity.
  - unfold thermistor_management_callback, event_issued. run_monad.
    rewrite app_nil_r. reflexivity.
Qed.

(** The management callback returns success to the stack on every event,
    whatever the calls made during the initialisation returned: no failure
    of the initialisation reaches the caller. *)
Theorem management_callback_always_returns_success
    (cfg : build_config) (R : stack_results)
    (event : wiced_bt_management_evt_t)
    (data : wiced_bt_management_evt_data_t) (g : app_globals) :
  (exec (thermistor_management_callback cfg R event data) g).1 = WICED_SUCCESS.
Proof. unfold exec. rewrite management_callback_run. reflexivity. Qed.

(** On every event other than [BTM_ENABLED_EVT] the management callback
    only prints: every call it makes is a [WICED_BT_TRACE], and on an
    event it has no case for it makes no call at all. *)
Theorem only_enabled_event_acts
    (cfg : build_config) (R : stack_results)
    (event : wiced_bt_management_evt_t)
    (data : wiced_bt_management_evt_data_t) (g : app_globals) :
  event <> BTM_ENABLED_EVT ->
  Forall (fun c => is_trace c = true) (event_issued cfg R event data g)
  /\ (forall code, event = BTM_other_evt code ->
        event_issued cfg R event data g = []).
Proof.
  intros Hevent. destruct event; [congruence | ..].
  - split; [repeat constructor | intros code Hcode; discriminate Hcode].
  - split; [repeat constructor | intros code Hcode; discriminate Hcode].
  - split; [repeat constructor | intros code Hcode; discriminate Hcode].
  - split; [constructor | intros code' _; reflexivity].
Qed.

Lemma only_enabled_event_acts_witness :
  Forall (fun c => is_trace c = true)
         (event_issued sample_config (all_succeed 0)
                       BTM_BLE_ADVERT_STATE_CHANGED_EVT sample_evt_data
                       idle_globals)
  /\ event_issued sample_config (all_succeed 0) (BTM_other_evt 31)
                  sample_evt_data idle_globals = [].
Proof.
  split.
  - apply (only_enabled_event_acts
             sample_config (all_succeed 0) BTM_BLE_ADVERT_STATE_CHANGED_EVT
             sample_evt_data idle_globals).
    discriminate.
  - apply (only_enabled_event_acts
             sample_config (all_succeed 0) (BTM_other_evt 31)
             sample_evt_data idle_globals) with (code := 31);
      [discriminate | reflexivity].
Defined.

(** The callback keeps no record of the events it has handled: the calls
    made for two events in a row are those of the first followed by those
    of the second, and the global data are untouched.  In particular a
    second [BTM_ENABLED_EVT] runs the whole initialisation again: the
    GATT registration, the timer creation and the start of advertising
    are each called twice. *)
Theorem second_enabled_event_initialises_again
    (cfg : build_config) (R1 R2 : stack_results)
    (event1 event2 : wiced_bt_management_evt_t)
    (data1 data2 : wiced_bt_management_evt_data_t) (g : app_globals) :
  calls_of (two_events cfg R1 event1 data1 R2 event2 data2) g
  = event_issued cfg R1 event1 data1 g ++ event_issued cfg R2 event2 data2 g
  /\ globals_after (two_events cfg R1 event1 data1 R2 event2 data2) g = g
  /\ count_calls is_gatt_register
       (calls_of (two_events cfg R1 BTM_ENABLED_EVT data1
                                 R2 BTM_ENABLED_EVT data2) g) = 2%nat
  /\ count_calls is_init_timer
       (calls_of (two_events cfg R1 BTM_ENABLED_EVT data1
                                 R2 BTM_ENABLED_EVT data2) g) = 2%nat
  /\ count_calls is_start_advertisements
       (calls_of (two_events cfg R1 BTM_ENABLED_EVT data1
                                 R2 BTM_ENABLED_EVT data2) g) = 2%nat.
Proof.
  assert (Hrun : forall e1 e2,
             exec (two_events cfg R1 e1 data1 R2 e2 data2) g
             = (WICED_SUCCESS,
                mk_world g (event_issued cfg R1 e1 data1 g
                            ++ event_issued cfg R2 e2 data2 g))).
  { intros e1 e2. unfold exec, two_events, mbind, App_bind.
    rewrite !management_callback_run. reflexivity. }
  unfold calls_of, globals_after. rewrite !Hrun. cbn [snd calls globals].
  split; [reflexivity |]. split; [reflexivity |].
  rewrite !count_calls_app, !enabled_evt_issued_eq, !count_calls_app.
  assert (Hinit : forall R,
             count_calls is_gatt_register (app_init_calls cfg R) = 1%nat
             /\ count_calls is_init_timer (app_init_calls cfg R) = 1%nat
             /\ count_calls is_start_advertisements (app_init_calls cfg R)
                = 1%nat).
  { intros R. by_outcome R; repeat split; reflexivity. }
  destruct (Hinit R1) as (-> & -> & ->).
  destruct (Hinit R2) as (-> & -> & ->).
  repeat split; reflexivity.
Qed.

(** ** More on the order and the arguments of the initialisation *)

(** In the initialisation, whatever the calls return, the advertisement
    data are set, pairing is switched off and the upgrade library is
    initialised, each exactly once and each before the one start of
    advertising; the timer is created, once, before the advertisement data
    are set, and it is started, when it is started, after its creation. *)
Theorem init_configures_before_advertising
    (cfg : build_config) (R : stack_results) (g : app_globals) :
  count_calls is_set_raw_advertisement_data (init_issued cfg R g) = 1%nat
  /\ count_calls is_set_pairable_mode (init_issued cfg R g) = 1%nat
  /\ count_calls is_ota_fw_upgrade_init (init_issued cfg R g) = 1%nat
  /\ count_calls is_start_advertisements (init_issued cfg R g) = 1%nat
  /\ count_calls is_init_timer (init_issued cfg R g) = 1%nat
  /\ count_calls is_start_timer (init_issued cfg R g)
     = one_if (WICED_SUCCESS =? wiced_init_timer_result R)
  /\ precedes is_set_raw_advertisement_data is_start_advertisements
              (init_issued cfg R g)
  /\ precedes is_set_pairable_mode is_start_advertisements
              (init_issued cfg R g)
  /\ precedes is_ota_fw_upgrade_init is_start_advertisements
              (init_issued cfg R g)
  /\ precedes is_init_timer is_start_timer (init_issued cfg R g)
  /\ precedes is_init_timer is_set_raw_advertisement_data
              (init_issued cfg R g).
Proof.
  rewrite init_issued_eq.
  by_outcome R;
    repeat lazymatch goal with |- _ /\ _ => split end;
    first [reflexivity | apply precedes_decide; reflexivity].
Qed.

(** On every event and whatever the calls return, the callback never
    allows pairing and never advertises in another mode: each call of
    [wiced_bt_set_pairable_mode] has pairing off, and each call of
    [wiced_bt_start_advertisements] asks for undirected high-duty
    advertising on the public address. *)
Theorem pairing_never_allowed
    (cfg : build_config) (R : stack_results)
    (event : wiced_bt_management_evt_t)
    (data : wiced_bt_management_evt_data_t) (g : app_globals) :
  Forall (fun c =>
            (is_set_pairable_mode c = true ->
               c = wiced_bt_set_pairable_mode false true)
            /\ (is_start_advertisements c = true ->
                  c = wiced_bt_start_advertisements
                        BTM_BLE_ADVERT_UNDIRECTED_HIGH BLE_ADDR_PUBLIC))
         (event_issued cfg R event data g).
Proof.
  destruct event.
  - rewrite enabled_evt_issued_eq.
    by_outcome R;
      repeat constructor; intros H; first [discriminate H | reflexivity].
  - repeat constructor; intros H; discriminate H.
  - repeat constructor; intros H; discriminate H.
  - repeat constructor; intros H; discriminate H.
  - constructor.
Qed.

(** The management callback never reads the sensor and never requests a
    notification, on any event; a tick makes no other calls than the
    sensor read, the prints and the send request, so it never registers,
    advertises, changes pairing or touches the timer. *)
Theorem callbacks_keep_to_their_calls
    (cfg : build_config) (R : stack_results)
    (event : wiced_bt_management_evt_t)
    (data : wiced_bt_management_evt_data_t) (g : app_globals) :
  count_calls is_thermistor_read (event_issued cfg R event data g) = 0%nat
  /\ count_calls is_send_notification (event_issued cfg R event data g) = 0%nat
  /\ Forall (fun c => is_thermistor_read c || is_trace c
                      || is_send_notification c = true)
            (tick_issued cfg R g).
Proof.
  split; [| split].
  - destruct event; [| reflexivity ..].
    rewrite enabled_evt_issued_eq. by_outcome R; reflexivity.
  - destruct event; [| reflexivity ..].
    rewrite enabled_evt_issued_eq. by_outcome R; reflexivity.
  - rewrite tick_issued_eq. unfold tick_calls.
    destruct (connected g), (notifications_enabled g); repeat constructor.
Qed.

(** ** The declared lengths of the advertisement elements *)

(** The elements handed to the stack, by the builder and by the
    initialisation alike, are the same three whatever the calls return;
    the length each declares is the size of the data it points to exactly
    when the generated name length is the length of the device name and
    the expansion of [FROM_BIT16_TO_8] has a one-byte type: [uuid_data] is
    one byte, so with a wider type the stack is told to read past it. *)
Theorem advertisement_lengths_exact_iff
    (cfg : build_config) (R : stack_results) (g : app_globals) :
  advertised_elements (calls_of (thermistor_set_advertisement_data cfg R) g)
  = advertised_elements (init_issued cfg R g)
  /\ (Forall declared_length_exact
             (advertised_elements (init_issued cfg R g)) <->
      app_gap_device_name_len cfg = Z.of_nat (length (app_gap_device_name cfg))
      /\ sizeof_FROM_BIT16_TO_8 cfg = 1).
Proof.
  assert (Helems : advertised_elements (init_issued cfg R g)
                   = [adv_elem_flags; adv_elem_name cfg; adv_elem_third cfg]).
  { rewrite init_issued_eq. by_outcome R; reflexivity. }
  rewrite Helems. split; [reflexivity |].
  unfold declared_length_exact. split.
  - intros Hall.
    apply Forall_cons in Hall as [_ Hall].
    apply Forall_cons in Hall as [Hname Hall].
    apply Forall_cons in Hall as [Hthird _].
    split; [exact Hname | exact Hthird].
  - intros [Hname Hthird].
    repeat constructor; [exact Hname | exact Hthird].
Qed.
